(** * Speed benchmark for transformer inference: a shallow embedding

    This development embeds [examples/speed-benchmark/speed_benchmark_transformer.py]
    and states the benchmark's contract over the embedding.

    Conventions.
    - A Python [str] is a Rocq [string] holding its UTF-8 bytes.  Every string
      operation of the script ([*], [replace], [os.path.join], [os.path.dirname],
      f-string concatenation) acts on ASCII separators only, so it commutes with
      the encoding.
    - A Python [int] is a [Z].  A Python [float] is an exact rational [Q]; a
      float that went through [round(x, 4)] is kept as its number of
      ten-thousandths ([fixed4]).
    - Everything the script obtains from the ML framework, the accelerator, the
      clock and the hub is read from a [World]; everything it changes (seed,
      console, environment, file tree) is threaded through a [State] by a small
      state-and-exception monad. *)

From Stdlib Require Import ZArith QArith Qabs Ascii String List Lia Bool.
From Stdlib Require Import DecimalString DecimalZ.
From stdpp Require Import base option gmap strings list.

Close Scope Q_scope.
#[local] Arguments String.append !_ _ : simpl nomatch.
Local Open Scope string_scope.
Local Open Scope Z_scope.

(** ** Characters and Python string operations *)

Definition sep : ascii := Ascii.ascii_of_nat 47.        (* '/' *)
Definition comma : ascii := Ascii.ascii_of_nat 44.      (* ',' *)
Definition dquote : ascii := Ascii.ascii_of_nat 34.     (* the double quote *)
Definition newline : ascii := Ascii.ascii_of_nat 10.    (* '\n' *)
Definition creturn : ascii := Ascii.ascii_of_nat 13.    (* '\r' *)
Definition dot : ascii := Ascii.ascii_of_nat 46.        (* '.' *)
Definition minus : ascii := Ascii.ascii_of_nat 45.      (* '-' *)
Definition equals : ascii := Ascii.ascii_of_nat 61.     (* '=' *)

Definition ascii_eqb (a b : ascii) : bool := Ascii.eqb a b.

(** [s * n] on a Python string: [n] copies of [s], none when [n <= 0]. *)
Fixpoint str_repeat (s : string) (n : nat) : string :=
  match n with
  | O => EmptyString
  | S k => s ++ str_repeat s k
  end.

Definition str_mul (s : string) (n : Z) : string := str_repeat s (Z.to_nat n).

(** [s.replace(c, by)] for a one-character pattern [c]. *)
Fixpoint str_replace (c : ascii) (by_ : string) (s : string) : string :=
  match s with
  | EmptyString => EmptyString
  | String a rest =>
      if ascii_eqb a c then by_ ++ str_replace c by_ rest
      else String a (str_replace c by_ rest)
  end.

Fixpoint str_contains (c : ascii) (s : string) : bool :=
  match s with
  | EmptyString => false
  | String a rest => ascii_eqb a c || str_contains c rest
  end.

Definition startswith_char (c : ascii) (s : string) : bool :=
  match s with
  | String a _ => ascii_eqb a c
  | EmptyString => false
  end.

Fixpoint endswith_char (c : ascii) (s : string) : bool :=
  match s with
  | EmptyString => false
  | String a EmptyString => ascii_eqb a c
  | String _ rest => endswith_char c rest
  end.

(** [s.rstrip(c)]. *)
Fixpoint rstrip_char (c : ascii) (s : string) : string :=
  match s with
  | EmptyString => EmptyString
  | String a rest =>
      match rstrip_char c rest with
      | EmptyString => if ascii_eqb a c then EmptyString else String a EmptyString
      | r => String a r
      end
  end.

(** [s == c * len(s)]. *)
Fixpoint all_char (c : ascii) (s : string) : bool :=
  match s with
  | EmptyString => true
  | String a rest => ascii_eqb a c && all_char c rest
  end.

(** [s[:s.rfind(c) + 1]]: the prefix up to and including the last [c]. *)
Fixpoint upto_last (c : ascii) (s : string) : string :=
  match s with
  | EmptyString => EmptyString
  | String a rest =>
      if str_contains c rest then String a (upto_last c rest)
      else if ascii_eqb a c then String a EmptyString
      else EmptyString
  end.

(** [s.split(c)]. *)
Fixpoint str_split (c : ascii) (s : string) : list string :=
  match s with
  | EmptyString => [EmptyString]
  | String a rest =>
      if ascii_eqb a c then EmptyString :: str_split c rest
      else match str_split c rest with
           | [] => [String a EmptyString]
           | w :: ws => String a w :: ws
           end
  end.

(** ** [posixpath] *)

(** [os.path.join(a, b)]. *)
Definition path_join (a b : string) : string :=
  if startswith_char sep b then b
  else if (String.eqb a EmptyString || endswith_char sep a)%bool then a ++ b
  else a ++ String sep b.

(** [os.path.dirname(p)]. *)
Definition path_dirname (p : string) : string :=
  let head := upto_last sep p in
  if (negb (String.eqb head EmptyString) && negb (all_char sep head))%bool
  then rstrip_char sep head
  else head.

(** ** Printing integers: [str(n)] and two-digit [strftime] fields *)

Definition str_of_Z (z : Z) : string := NilZero.string_of_int (Z.to_int z).

Definition Z_of_str (s : string) : option Z :=
  match NilZero.int_of_string s with
  | Some d => Some (Z.of_int d)
  | None => None
  end.

Definition pad2 (n : nat) : string :=
  if (n <? 10)%nat then String (Ascii.ascii_of_nat 48) (str_of_Z (Z.of_nat n))
  else str_of_Z (Z.of_nat n).

Record datetime := {
  dt_month : nat;
  dt_day : nat;
  dt_hour : nat;
  dt_minute : nat;
  dt_second : nat;
}.

(** [now.strftime("%m%d%H%M%S")]. *)
Definition strftime_mdHMS (now : datetime) : string :=
  pad2 (dt_month now) ++ pad2 (dt_day now) ++ pad2 (dt_hour now)
    ++ pad2 (dt_minute now) ++ pad2 (dt_second now).

(** ** Numbers: floats as rationals, [round(x, 4)] *)

(** A float with at most four decimals, as its number of ten-thousandths. *)
Record fixed4 := Fixed4 { units4 : Z }.

Definition fixed4_value (f : fixed4) : Q := (units4 f # 10000)%Q.

(** Nearest integer to [n / d], ties to the even neighbour (Python's rule). *)
Definition round_half_even (n : Z) (d : positive) : Z :=
  let fl := n / Z.pos d in
  let r := n mod Z.pos d in
  if 2 * r <? Z.pos d then fl
  else if Z.pos d <? 2 * r then fl + 1
  else if Z.even fl then fl else fl + 1.

(** [round(x, 4)]. *)
Definition round4 (x : Q) : fixed4 :=
  Fixed4 (round_half_even (Qnum x * 10000) (Qden x)).

(** [a / b] on numbers: true division, [ZeroDivisionError] on a zero divisor
    (the [None] case). *)
Definition true_div (a b : Q) : option Q :=
  if Qeq_bool b 0%Q then None else Some (a / b)%Q.

(** ** Python values of the result record *)

Inductive pyval :=
| PNone
| PBool (b : bool)
| PInt (z : Z)
| PFloat (f : fixed4)
| PStr (s : string).

(** An insertion-ordered [dict] with string keys. *)
Definition pydict := list (string * pyval).

Definition dict_keys (d : pydict) : list string := map fst d.

Definition opt_str (o : option string) : pyval :=
  match o with
  | Some s => PStr s
  | None => PNone
  end.

(** ** Tensors: only the token matrix and its shape matter *)

Definition tensor := list (list Z).

Definition shape0 (t : tensor) : Z := Z.of_nat (length t).
Definition shape1 (t : tensor) : Z := Z.of_nat (length (hd [] t)).

(** ** Exceptions *)

Inductive os_errno := ENOENT | EEXIST | ENOTDIR | EISDIR.

Inductive exn :=
| ImportError (msg : string)
| AssertionError
| ZeroDivisionError
| TypeError
| AttributeError
| OSError (e : os_errno)
| FrameworkError (what : string)
| SystemExit (code : Z).

Inductive outcome (A : Type) :=
| Ok (a : A)
| Raise (e : exn).
Arguments Ok {A} a.
Arguments Raise {A} e.

(** ** The file tree *)

(** A location is the list of names from the root; the root itself is always a
    directory and is not stored. *)
Abbreviation location := (list string).

Inductive node :=
| Dir
| File (content : string).

Definition is_dir (t : gmap location node) (p : location) : bool :=
  match p with
  | [] => true
  | _ => match t !! p with
         | Some Dir => true
         | _ => false
         end
  end.

(** Follow the components of a path from [loc].  With [create] missing
    directories are made on the way (the walk of [os.makedirs]); without it
    they are an error (the walk of [open]).  A regular file in the way is an
    error in both. *)
Fixpoint walk (create : bool) (comps : list string) (loc : location)
         (t : gmap location node) : outcome (location * gmap location node) :=
  match comps with
  | [] => Ok (loc, t)
  | c :: rest =>
      if (String.eqb c "" || String.eqb c ".")%bool then walk create rest loc t
      else if String.eqb c ".." then walk create rest (removelast loc) t
      else
        let p := (loc ++ [c])%list in
        match t !! p with
        | Some Dir => walk create rest p t
        | Some (File _) =>
            Raise (OSError (match rest with [] => EEXIST | _ => ENOTDIR end))
        | None =>
            if create then walk create rest p (<[p := Dir]> t)
            else Raise (OSError ENOENT)
        end
  end.

Definition start_of (cwd : location) (path : string) : location :=
  if startswith_char sep path then [] else cwd.

(** [os.makedirs(path, exist_ok=True)]. *)
Definition fs_makedirs (cwd : location) (path : string)
           (t : gmap location node) : outcome (gmap location node) :=
  if String.eqb path "" then Raise (OSError ENOENT)
  else if negb (is_dir t (start_of cwd path)) then Raise (OSError ENOENT)
  else match walk true (str_split sep path) (start_of cwd path) t with
       | Ok (_, t') => Ok t'
       | Raise e => Raise e
       end.

Fixpoint split_last (l : list string) : list string * string :=
  match l with
  | [] => ([], "")
  | [x] => ([], x)
  | x :: rest => let (d, f) := split_last rest in (x :: d, f)
  end.

(** Where [open(path, 'w')] puts the file: the directory part must exist. *)
Definition fs_locate (cwd : location) (path : string)
           (t : gmap location node) : outcome location :=
  let (dirs, name) := split_last (str_split sep path) in
  if negb (is_dir t (start_of cwd path)) then Raise (OSError ENOENT)
  else match walk false dirs (start_of cwd path) t with
       | Raise e => Raise e
       | Ok (d, _) =>
           if (String.eqb name "" || String.eqb name "." || String.eqb name "..")%bool
           then Raise (OSError EISDIR)
           else match t !! (d ++ [name])%list with
                | Some Dir => Raise (OSError EISDIR)
                | _ => Ok (d ++ [name])%list
                end
       end.

(** Create or truncate the file at [path] and write [content]. *)
Definition fs_write (cwd : location) (path content : string)
           (t : gmap location node) : outcome (gmap location node) :=
  match fs_locate cwd path t with
  | Ok p => Ok (<[p := File content]> t)
  | Raise e => Raise e
  end.

(** ** What the script reads from outside: the world *)

Inductive hub := ModelScope | HuggingFace.

Record GenerationConfig := {
  min_length : Z;
  max_new_tokens : option Z;
  other_settings : string;
}.

(** [tokenizer(batch, return_tensors='pt')['input_ids']]. *)
Record Tokenizer := { encode_batch : list string -> outcome tensor }.

(** [model.generate] applied to the token matrix and the generation config. *)
Record Model := { generate : tensor -> GenerationConfig -> outcome tensor }.

Record World := {
  (* importlib.util.find_spec(name) is not None *)
  module_installed : string -> bool;
  (* from <module> import ... *)
  import_from : string -> outcome unit;
  snapshot_download : hub -> option string -> outcome string;
  tokenizer_from_pretrained : hub -> string -> outcome Tokenizer;
  (* arguments: path, torch_dtype, device_map, attn_implementation *)
  model_from_pretrained : hub -> string -> string -> string -> string -> outcome Model;
  generation_config_from_pretrained : hub -> string -> outcome GenerationConfig;
  (* the value of the n-th call of time.time() *)
  time_time : nat -> Q;
  datetime_now : datetime;
  cuda_device_count : nat;
  cuda_max_memory_allocated : nat -> Z;
  getcwd : location;
}.

(** ** What the script changes: the state *)

Inductive message :=
| MsgSetDevices (envs : option string) (model_id : option string) (context_length : option Z)
| MsgDownloading (model_id : option string)
| MsgDownloaded (model_id : option string) (model_path : string)
| MsgGenerationConfig (cfg : GenerationConfig)
| MsgStart (model_id : option string) (context_length : Z)
| MsgFinalResult (data : pydict)
| MsgSaved (out_file : string).

Inductive event :=
| EvSetSeed (seed : Z)
| EvPrint (m : message)
| EvSetEnv (key value : string)
| EvImport (module : string)
| EvDownload (h : hub) (model_id : option string)
| EvLoadTokenizer (model_path : string)
| EvLoadModel (model_path : string)
| EvLoadGenerationConfig (model_path : string)
| EvTokenize (batch : list string)
| EvToDevice
| EvTime
| EvSynchronize
| EvGenerate (inputs : tensor) (cfg : GenerationConfig)
| EvMaxMemoryAllocated (device : nat)
| EvEmptyCache
| EvNow
| EvMakedirs (path : string)
| EvWriteFile (path : string) (content : string).

Record State := {
  rng_seed : option Z;
  environ : gmap string string;
  tree : gmap location node;
  clock_reads : nat;
  trace : list event;
}.

Definition log (e : event) (s : State) : State :=
  {| rng_seed := rng_seed s; environ := environ s; tree := tree s;
     clock_reads := clock_reads s; trace := (trace s ++ [e])%list |}.

Definition with_tree (t : gmap location node) (s : State) : State :=
  {| rng_seed := rng_seed s; environ := environ s; tree := t;
     clock_reads := clock_reads s; trace := trace s |}.

Definition tick (s : State) : State :=
  {| rng_seed := rng_seed s; environ := environ s; tree := tree s;
     clock_reads := S (clock_reads s); trace := trace s |}.

(** ** The state-and-exception monad *)

Definition M (A : Type) : Type := State -> outcome A * State.

Definition ret {A} (a : A) : M A := fun s => (Ok a, s).

Definition bind {A B} (m : M A) (k : A -> M B) : M B :=
  fun s => match m s with
           | (Ok a, s') => k a s'
           | (Raise e, s') => (Raise e, s')
           end.

Definition raise {A} (e : exn) : M A := fun s => (Raise e, s).

Definition lift {A} (o : outcome A) : M A := fun s => (o, s).

Definition emit (e : event) : M unit := fun s => (Ok tt, log e s).

Notation "x <- m ;; k" := (bind m (fun x => k))
  (at level 100, m at next level, right associativity).
Notation "m ;;; k" := (bind m (fun _ => k))
  (at level 100, right associativity).

(** The [assert] statement. *)
Definition py_assert (b : bool) : M unit :=
  if b then ret tt else raise AssertionError.

Definition print (m : message) : M unit := emit (EvPrint m).

(** [transformers.trainer_utils.set_seed]. *)
Definition set_seed (seed : Z) : M unit :=
  fun s => (Ok tt,
            log (EvSetSeed seed)
                {| rng_seed := Some seed; environ := environ s; tree := tree s;
                   clock_reads := clock_reads s; trace := trace s |}).

(** [os.environ[key] = value]. *)
Definition setenv (key value : string) : M unit :=
  fun s => (Ok tt,
            log (EvSetEnv key value)
                {| rng_seed := rng_seed s; environ := <[key := value]> (environ s);
                   tree := tree s; clock_reads := clock_reads s; trace := trace s |}).

Section Script.

Variable W : World.

(** [time.time()]. *)
Definition py_time : M Q :=
  fun s => (Ok (time_time W (clock_reads s)), log EvTime (tick s)).

(** [os.makedirs(path, exist_ok=True)]. *)
Definition makedirs (path : string) : M unit :=
  fun s => match fs_makedirs (getcwd W) path (tree s) with
           | Ok t => (Ok tt, log (EvMakedirs path) (with_tree t s))
           | Raise e => (Raise e, s)
           end.

(** Writing a whole text file. *)
Definition write_file (path content : string) : M unit :=
  fun s => match fs_write (getcwd W) path content (tree s) with
           | Ok t => (Ok tt, log (EvWriteFile path content) (with_tree t s))
           | Raise e => (Raise e, s)
           end.

Definition is_module_installed (module_name : string) : bool :=
  module_installed W module_name.

(** ** [class SpeedBenchmarkTransformer] *)

Definition SEED : Z := 1024.
Definition BATCH_SIZE : Z := 1.
Definition USE_FLASH_ATTN : bool := true.
Definition COMMENT : string := "default".
Definition DEVICE_MAP : string := "auto".
Definition TORCH_DTYPE : string := "auto".
Definition GENERATE_LENGTH_PER_EXPERIMENT : Z := 2048.
Definition OVERWRITE_RESULT : bool := false.
(* U+6211, in UTF-8 *)
Definition DUMMY_INPUT : string :=
  String (Ascii.ascii_of_nat 230)
    (String (Ascii.ascii_of_nat 136) (String (Ascii.ascii_of_nat 145) EmptyString)).

Record SpeedBenchmarkTransformer := {
  model_id : option string;
  outputs_dir : string;
  tokenizer : Tokenizer;
  model : Model;
  generation_config : GenerationConfig;
}.

Definition import_hub (use_modelscope : bool) : M hub :=
  if use_modelscope then
    if negb (is_module_installed "modelscope") then
      raise (ImportError "Please install modelscope: pip install modelscope[framework]")
    else
      emit (EvImport "modelscope") ;;;
      lift (import_from W "modelscope") ;;;
      ret ModelScope
  else
    if negb (is_module_installed "huggingface_hub") then
      raise (ImportError "Please install huggingface-hub: pip install huggingface-hub")
    else
      emit (EvImport "huggingface_hub") ;;;
      lift (import_from W "huggingface_hub") ;;;
      emit (EvImport "transformers") ;;;
      lift (import_from W "transformers") ;;;
      ret HuggingFace.

(** [SpeedBenchmarkTransformer.__init__]. *)
Definition init (model_id_ : option string) (use_modelscope : bool)
           (outputs_dir_ : string) : M SpeedBenchmarkTransformer :=
  set_seed SEED ;;;
  h <- import_hub use_modelscope ;;
  print (MsgDownloading model_id_) ;;;
  emit (EvDownload h model_id_) ;;;
  model_path <- lift (snapshot_download W h model_id_) ;;
  print (MsgDownloaded model_id_ model_path) ;;;
  emit (EvLoadTokenizer model_path) ;;;
  tokenizer_ <- lift (tokenizer_from_pretrained W h model_path) ;;
  let attn_impl := if USE_FLASH_ATTN then "flash_attention_2" else "eager" in
  emit (EvLoadModel model_path) ;;;
  model_ <- lift (model_from_pretrained W h model_path TORCH_DTYPE DEVICE_MAP attn_impl) ;;
  emit (EvLoadGenerationConfig model_path) ;;;
  generation_config_ <- lift (generation_config_from_pretrained W h model_path) ;;
  ret {| model_id := model_id_; outputs_dir := outputs_dir_;
         tokenizer := tokenizer_; model := model_;
         generation_config := generation_config_ |}.

(** The loop [for i in range(torch.cuda.device_count()): m += max_memory_allocated(i)],
    over the devices [start, start + n). *)
Fixpoint sum_max_memory (start n : nat) (m : Z) : M Z :=
  match n with
  | O => ret m
  | S k =>
      emit (EvMaxMemoryAllocated start) ;;;
      sum_max_memory (S start) k (m + cuda_max_memory_allocated W start)
  end.

(** The same sum, as a value: over the devices [0 .. device_count - 1]. *)
Definition total_max_memory : Z :=
  fold_right Z.add 0
    (map (cuda_max_memory_allocated W) (seq 0 (cuda_device_count W))).

Definition GiB (bytes : Z) : Q := (inject_Z bytes / 1024 / 1024 / 1024)%Q.

(** The [data] dict of [run]. *)
Definition result_record (model_id_ : option string) (batch_size context_length : Z)
           (tokens_per_second max_gpu_memory_cost_gb : Q) : pydict :=
  [ ("model_id", opt_str model_id_);
    ("batch_size", PInt batch_size);
    ("context_length_per_experiment", PInt context_length);
    ("generate_length_per_experiment", PInt GENERATE_LENGTH_PER_EXPERIMENT);
    ("use_flash_attn", PBool USE_FLASH_ATTN);
    ("comment", PStr COMMENT);
    ("tokens_per_second", PFloat (round4 tokens_per_second));
    ("max_gpu_memory_cost_gb", PFloat (round4 max_gpu_memory_cost_gb)) ].

(** The name of the result file, without its directory. *)
Definition result_file_name (model_id_ : string) (context_length : Z)
           (timestamp : string) : string :=
  str_replace sep "__" model_id_ ++ "_context_length-" ++ str_of_Z context_length
    ++ "_" ++ timestamp ++ ".csv".

End Script.

(** ** [pandas.DataFrame] and [to_csv(index=False)] *)

Record DataFrame := {
  columns : list string;
  rows : list (list pyval);
}.

Definition dict_get (k : string) (d : pydict) : pyval :=
  match find (fun kv => String.eqb (fst kv) k) d with
  | Some kv => snd kv
  | None => PNone
  end.

Definition add_columns (cols : list string) (d : pydict) : list string :=
  fold_left (fun acc k => if existsb (String.eqb k) acc then acc else (acc ++ [k])%list)
            (dict_keys d) cols.

(** [pd.DataFrame(records)] for a list of dicts: the columns are the keys in
    order of first appearance, one row per dict, a missing key is NaN. *)
Definition DataFrame_of_records (records : list pydict) : DataFrame :=
  let cols := fold_left add_columns records [] in
  {| columns := cols;
     rows := map (fun d => map (fun k => dict_get k d) cols) records |}.

Definition digit_char (n : Z) : ascii := Ascii.ascii_of_N (Z.to_N (48 + n)).

Definition four_digits (n : Z) : string :=
  String (digit_char (n / 1000))
    (String (digit_char ((n / 100) mod 10))
       (String (digit_char ((n / 10) mod 10))
          (String (digit_char (n mod 10)) EmptyString))).

(** The decimals of a float's [repr]: trailing zeros dropped, one digit kept. *)
Definition frac_digits (n : Z) : string :=
  match rstrip_char (digit_char 0) (four_digits n) with
  | EmptyString => "0"
  | r => r
  end.

(** The [repr] of a float with four decimals, in positional notation. *)
Definition render_fixed4 (f : fixed4) : string :=
  let u := units4 f in
  let a := Z.abs u in
  (if u <? 0 then "-" else "")
    ++ str_of_Z (a / 10000) ++ String dot (frac_digits (a mod 10000)).

(** How [to_csv] writes one value. *)
Definition render_value (v : pyval) : string :=
  match v with
  | PNone => ""
  | PBool true => "True"
  | PBool false => "False"
  | PInt z => str_of_Z z
  | PFloat f => render_fixed4 f
  | PStr s => s
  end.

(** Minimal quoting of the [csv] module: a field is quoted when it holds the
    delimiter, the quote character or a line break; quotes inside are doubled. *)
Definition needs_quote (s : string) : bool :=
  (str_contains comma s || str_contains dquote s
   || str_contains newline s || str_contains creturn s)%bool.

Definition csv_escape (s : string) : string :=
  str_replace dquote (String dquote (String dquote EmptyString)) s.

Definition csv_field (s : string) : string :=
  if needs_quote s then String dquote (csv_escape s ++ String dquote EmptyString)
  else s.

Fixpoint csv_join (fields : list string) : string :=
  match fields with
  | [] => EmptyString
  | [f] => f
  | f :: rest => f ++ String comma (csv_join rest)
  end.

Definition csv_line (cells : list string) : string :=
  match cells with
  | [EmptyString] => String dquote (String dquote (String newline EmptyString))
  | _ => csv_join (map csv_field cells) ++ String newline EmptyString
  end.

Fixpoint csv_lines (table : list (list string)) : string :=
  match table with
  | [] => EmptyString
  | r :: rest => csv_line r ++ csv_lines rest
  end.

(** [df.to_csv(index=False)]: the header line, then one line per row. *)
Definition to_csv (df : DataFrame) : string :=
  csv_lines (columns df :: map (map render_value) (rows df)).

(** ** Reading the file back

    The script never reads its result file.  The reader below is the
    counterpart of [to_csv] that the round-trip property of the specification
    speaks of: a CSV parser followed by a conversion of each cell at the
    column's type. *)





Inductive dtype := TStr | TInt | TBool | TFloat.

(** Split at the last occurrence of [c]. *)
Fixpoint split_at_last (c : ascii) (s : string) : option (string * string) :=
  match s with
  | EmptyString => None
  | String a rest =>
      match split_at_last c rest with
      | Some (l, r) => Some (String a l, r)
      | None => if ascii_eqb a c then Some (EmptyString, rest) else None
      end
  end.








(** ** [SpeedBenchmarkTransformer.run] and [save_result] *)

Section Run.

Variable W : World.

Definition with_generation_config (self : SpeedBenchmarkTransformer)
           (cfg : GenerationConfig) : SpeedBenchmarkTransformer :=
  {| model_id := model_id self; outputs_dir := outputs_dir self;
     tokenizer := tokenizer self; model := model self;
     generation_config := cfg |}.

(** [SpeedBenchmarkTransformer.save_result]. *)
Definition save_result (data : pydict) (out_file : string) : M unit :=
  let df := DataFrame_of_records [data] in
  write_file W out_file (to_csv df) ;;;
  print (MsgSaved out_file).

(** The generation config that [run] installs on the object. *)
Definition run_generation_config (self : SpeedBenchmarkTransformer)
           (context_length : Z) : GenerationConfig :=
  {| min_length := GENERATE_LENGTH_PER_EXPERIMENT + context_length;
     max_new_tokens := Some GENERATE_LENGTH_PER_EXPERIMENT;
     other_settings := other_settings (generation_config self) |}.

(** The batch [[context_str for _ in range(batch_size)]]. *)
Definition run_batch (context_length : Z) : list string :=
  repeat (str_mul DUMMY_INPUT context_length) (Z.to_nat BATCH_SIZE).

(** [SpeedBenchmarkTransformer.run]: the result is the object, whose
    generation config was updated, and the path of the file written. *)
Definition run (self : SpeedBenchmarkTransformer) (context_length : Z)
  : M (SpeedBenchmarkTransformer * string) :=
  (* Specify hyperparameters for generation *)
  let cfg := run_generation_config self context_length in
  let self := with_generation_config self cfg in
  print (MsgGenerationConfig (generation_config self)) ;;;
  (* Prepare inputs *)
  let batch_size := BATCH_SIZE in
  let batch := run_batch context_length in
  emit (EvTokenize batch) ;;;
  inputs <- lift (encode_batch (tokenizer self) batch) ;;
  py_assert (shape1 inputs =? context_length) ;;;
  py_assert (shape0 inputs =? batch_size) ;;;
  emit EvToDevice ;;;
  (* Run inference *)
  print (MsgStart (model_id self) context_length) ;;;
  start_time <- py_time W ;;
  emit EvSynchronize ;;;
  emit (EvGenerate inputs (generation_config self)) ;;;
  pred <- lift (generate (model self) inputs (generation_config self)) ;;
  emit EvSynchronize ;;;
  end_time <- py_time W ;;
  let time_cost := (end_time - start_time)%Q in
  py_assert (shape1 pred =? min_length (generation_config self)) ;;;
  m <- sum_max_memory W 0 (cuda_device_count W) 0 ;;
  let max_gpu_memory_cost := Z.max 0 m in
  emit EvEmptyCache ;;;
  (* Prepare results *)
  tokens_per_second <-
    match true_div (inject_Z GENERATE_LENGTH_PER_EXPERIMENT) time_cost with
    | Some q => ret q
    | None => raise ZeroDivisionError
    end ;;
  let max_gpu_memory_cost_gb := GiB max_gpu_memory_cost in
  let data := result_record (model_id self) batch_size context_length
                            tokens_per_second max_gpu_memory_cost_gb in
  print (MsgFinalResult data) ;;;
  (* Dump results to CSV file *)
  emit EvNow ;;;
  let timestamp := strftime_mdHMS (datetime_now W) in
  model_id_ <-
    match model_id self with
    | Some s => ret s
    | None => raise AttributeError
    end ;;
  let out_file := path_join (outputs_dir self)
                            (result_file_name model_id_ context_length timestamp) in
  let out_dir := path_dirname out_file in
  makedirs W out_dir ;;;
  save_result data out_file ;;;
  ret (self, out_file).

(** ** [argparse] and [main] *)

Inductive arg_action :=
| Store (type_ : dtype)
| StoreTrue.

Record argument := {
  option_string : string;
  action : arg_action;
  default : pyval;
}.

(** The five [add_argument] calls of [main]. *)
Definition parser_arguments : list argument :=
  [ {| option_string := "--model_id"; action := Store TStr; default := PNone |};
    {| option_string := "--context_length"; action := Store TInt; default := PNone |};
    {| option_string := "--gpus"; action := Store TStr; default := PNone |};
    {| option_string := "--use_modelscope"; action := StoreTrue; default := PBool false |};
    {| option_string := "--outputs_dir"; action := Store TStr;
       default := PStr "outputs/transformer" |} ].

(** The attribute of the namespace an option is stored in. *)
Definition dest (a : argument) : string :=
  match option_string a with
  | String _ (String _ name) => name
  | other => other
  end.

Fixpoint dict_set (k : string) (v : pyval) (d : pydict) : pydict :=
  match d with
  | [] => [(k, v)]
  | (k', v') :: rest =>
      if String.eqb k' k then (k, v) :: rest else (k', v') :: dict_set k v rest
  end.

Definition initial_namespace (table : list argument) : pydict :=
  map (fun a => (dest a, default a)) table.

Inductive resolved :=
| IsHelp
| IsArgument (a : argument)
| Unknown.

(** The option a token names: its exact option string, else the only option
    string it abbreviates. *)
Definition resolve (table : list argument) (name : string) : resolved :=
  let known := ("--help", IsHelp) :: map (fun a => (option_string a, IsArgument a)) table in
  match find (fun kv => String.eqb (fst kv) name) known with
  | Some kv => snd kv
  | None =>
      match List.filter (fun kv => String.prefix name (fst kv)) known with
      | [kv] => snd kv
      | _ => Unknown
      end
  end.

(** Split [--name=value] at the first [=]. *)
Fixpoint split_equals (s : string) : string * option string :=
  match s with
  | EmptyString => (EmptyString, None)
  | String c rest =>
      if ascii_eqb c equals then (EmptyString, Some rest)
      else let (n, v) := split_equals rest in (String c n, v)
  end.

Definition is_digit (c : ascii) : bool :=
  let n := Ascii.nat_of_ascii c in ((48 <=? n)%nat && (n <=? 57)%nat)%bool.

Fixpoint all_digits (s : string) : bool :=
  match s with
  | EmptyString => true
  | String c rest => (is_digit c && all_digits rest)%bool
  end.

(** [-5] or [-.5] or [-1.5]: taken as a value, not as an option. *)
Definition negative_number_like (s : string) : bool :=
  match s with
  | String c rest =>
      (ascii_eqb c minus &&
       match split_at_last dot rest with
       | Some (ip, fp) => all_digits ip && all_digits fp && negb (String.eqb fp "")
       | None => all_digits rest && negb (String.eqb rest "")
       end)%bool
  | EmptyString => false
  end.

Definition option_like (s : string) : bool :=
  (startswith_char minus s && (1 <? String.length s)%nat
   && negb (negative_number_like s)
   && negb (str_contains (Ascii.ascii_of_nat 32) s))%bool.

(** The [type=] conversion of an argument string. *)
Definition convert (ty : dtype) (s : string) : option pyval :=
  match ty with
  | TInt => option_map PInt (Z_of_str s)
  | _ => Some (PStr s)
  end.

(** [parser.parse_args(argv)], for a parser with optional arguments only.
    Unrecognised tokens are collected in [extras] and reported at the end; a
    bad or missing value ends the parse at once; help exits with status 0. *)
Fixpoint parse_loop (table : list argument) (argv : list string)
         (ns : pydict) (extras : list string) {struct argv} : outcome pydict :=
  match argv with
  | [] => match extras with
          | [] => Ok ns
          | _ => Raise (SystemExit 2)
          end
  | tok :: rest =>
      if String.eqb tok "-h" then Raise (SystemExit 0)
      else if (String.prefix "--" tok && negb (String.eqb tok "--"))%bool then
        let (name, inline) := split_equals tok in
        match resolve table name with
        | IsHelp =>
            match inline with
            | None => Raise (SystemExit 0)
            | Some _ => Raise (SystemExit 2)
            end
        | IsArgument a =>
            match action a, inline with
            | StoreTrue, None => parse_loop table rest (dict_set (dest a) (PBool true) ns) extras
            | StoreTrue, Some _ => Raise (SystemExit 2)
            | Store ty, Some v =>
                match convert ty v with
                | Some x => parse_loop table rest (dict_set (dest a) x ns) extras
                | None => Raise (SystemExit 2)
                end
            | Store ty, None =>
                match rest with
                | v :: rest' =>
                    if (option_like v || String.eqb v "--")%bool then Raise (SystemExit 2)
                    else match convert ty v with
                         | Some x => parse_loop table rest' (dict_set (dest a) x ns) extras
                         | None => Raise (SystemExit 2)
                         end
                | [] => Raise (SystemExit 2)
                end
            end
        | Unknown => parse_loop table rest ns (extras ++ [tok])%list
        end
      else parse_loop table rest ns (extras ++ [tok])%list
  end.

Definition parse_args (table : list argument) (argv : list string) : outcome pydict :=
  parse_loop table argv (initial_namespace table) [].

(** [args.name]. *)
Definition getattr (ns : pydict) (name : string) : M pyval :=
  match find (fun kv => String.eqb (fst kv) name) ns with
  | Some kv => ret (snd kv)
  | None => raise AttributeError
  end.

Definition as_opt_str (v : pyval) : option string :=
  match v with
  | PStr s => Some s
  | _ => None
  end.

Definition as_opt_int (v : pyval) : option Z :=
  match v with
  | PInt z => Some z
  | _ => None
  end.

Definition as_bool (v : pyval) : bool :=
  match v with
  | PBool b => b
  | PNone => false
  | _ => true
  end.

(** What [main] does with the five values read from the namespace. *)
Definition main_body (model_id_ envs context_length use_modelscope outputs_dir_ : pyval)
  : M unit :=
  print (MsgSetDevices (as_opt_str envs) (as_opt_str model_id_)
                       (as_opt_int context_length)) ;;;
  match as_opt_str envs with
  | Some e => setenv "CUDA_VISIBLE_DEVICES" e
  | None => raise TypeError
  end ;;;
  speed_benchmark <- init W (as_opt_str model_id_) (as_bool use_modelscope)
                          (match as_opt_str outputs_dir_ with
                           | Some d => d
                           | None => EmptyString
                           end) ;;
  match as_opt_int context_length with
  | Some L => run speed_benchmark L ;;; ret tt
  | None => raise TypeError
  end.

(** Reading the five attributes of the parsed namespace. *)
Definition main_with (args : pydict) : M unit :=
  model_id_ <- getattr args "model_id" ;;
  envs <- getattr args "gpus" ;;
  context_length <- getattr args "context_length" ;;
  use_modelscope <- getattr args "use_modelscope" ;;
  outputs_dir_ <- getattr args "outputs_dir" ;;
  main_body model_id_ envs context_length use_modelscope outputs_dir_.

(** [main], on the command line [argv] (without the program name). *)
Definition main (argv : list string) : M unit :=
  args <- lift (parse_args parser_arguments argv) ;;
  main_with args.

End Run.

(** ** Statements and auxiliary definitions *)




Definition logs (es : list event) (s : State) : State :=
  {| rng_seed := rng_seed s; environ := environ s; tree := tree s;
     clock_reads := clock_reads s; trace := (trace s ++ es)%list |}.

(** The events of a run that reaches its end. *)
Definition run_events (W : World) (self : SpeedBenchmarkTransformer) (L : Z)
           (inputs : tensor) (data : pydict) (out : string) : list event :=
  ([ EvPrint (MsgGenerationConfig (run_generation_config self L));
     EvTokenize (run_batch L); EvToDevice;
     EvPrint (MsgStart (model_id self) L);
     EvTime; EvSynchronize;
     EvGenerate inputs (run_generation_config self L);
     EvSynchronize; EvTime ]
   ++ map EvMaxMemoryAllocated (seq 0 (cuda_device_count W))
   ++ [ EvEmptyCache; EvPrint (MsgFinalResult data); EvNow;
        EvMakedirs (path_dirname out);
        EvWriteFile out (to_csv (DataFrame_of_records [data]));
        EvPrint (MsgSaved out) ])%list.

(** The wall-clock time between the two clock readings of a run started in [s]. *)
Definition time_cost_at (W : World) (s : State) : Q :=
  (time_time W (S (clock_reads s)) - time_time W (clock_reads s))%Q.

Definition nonempty_comps (l : list string) : list string :=
  List.filter (fun c => negb (String.eqb c "")) l.

Definition ok_part {A} (o : outcome A) : option A :=
  match o with
  | Ok a => Some a
  | Raise _ => None
  end.

(** The locations a walk passes through, whatever the tree holds. *)
Fixpoint visited (comps : list string) (loc : location) : list location :=
  match comps with
  | [] => []
  | c :: rest =>
      if (String.eqb c "" || String.eqb c ".")%bool then visited rest loc
      else if String.eqb c ".." then visited rest (removelast loc)
      else (loc ++ [c])%list :: visited rest (loc ++ [c])%list
  end.

(** [os.path.isdir(path)]. *)
Definition fs_isdir (cwd : location) (path : string) (t : gmap location node) : bool :=
  (negb (String.eqb path "") && is_dir t (start_of cwd path)
   && match walk false (str_split sep path) (start_of cwd path) t with
      | Ok _ => true
      | Raise _ => false
      end)%bool.

(** ** A small world to run the script in *)

(** One token per character of the dummy prompt (three bytes each). *)
Definition demo_tokenizer : Tokenizer :=
  {| encode_batch := fun batch =>
       Ok (map (fun s => repeat 25105 (Nat.div (String.length s) 3)) batch) |}.

(** Pads every row with token 0 up to [min_length]. *)
Definition demo_model : Model :=
  {| generate := fun inputs cfg =>
       Ok (map (fun row =>
                  (row ++ repeat 0 (Z.to_nat (min_length cfg) - length row)%nat)%list)
               inputs) |}.

Definition demo_config : GenerationConfig :=
  {| min_length := 0; max_new_tokens := None; other_settings := "do_sample=True" |}.

Definition demo_world (installed : list string) : World :=
  {| module_installed := fun m => existsb (String.eqb m) installed;
     import_from := fun _ => Ok tt;
     snapshot_download := fun _ mid =>
       match mid with
       | Some m => Ok ("/cache/" ++ m)
       | None => Raise (FrameworkError "snapshot_download")
       end;
     tokenizer_from_pretrained := fun _ _ => Ok demo_tokenizer;
     model_from_pretrained := fun _ _ _ _ _ => Ok demo_model;
     generation_config_from_pretrained := fun _ _ => Ok demo_config;
     time_time := fun n => inject_Z (3 * Z.of_nat n);
     datetime_now := {| dt_month := 11; dt_day := 3; dt_hour := 9;
                        dt_minute := 5; dt_second := 7 |};
     cuda_device_count := 2;
     cuda_max_memory_allocated := fun i => 1073741824 * (Z.of_nat i + 1);
     getcwd := ["home"; "user"] |}.

Definition demo_tree : gmap location node :=
  <[ ["home"; "user"] := Dir ]> (<[ ["home"] := Dir ]> ∅).

Definition demo_state (t : gmap location node) : State :=
  {| rng_seed := None; environ := ∅; tree := t; clock_reads := 0; trace := [] |}.

Definition demo_bench (od : string) : SpeedBenchmarkTransformer :=
  {| model_id := Some "Qwen/Qwen2.5-0.5B-Instruct"; outputs_dir := od;
     tokenizer := demo_tokenizer; model := demo_model;
     generation_config := demo_config |}.

Definition demo_W : World := demo_world ["modelscope"].

Definition demo_self : SpeedBenchmarkTransformer := demo_bench "outputs/transformer".

Definition demo_s0 : State := demo_state demo_tree.

Definition demo_self' : SpeedBenchmarkTransformer :=
  with_generation_config demo_self (run_generation_config demo_self 1).

Definition demo_out : string :=
  "outputs/transformer/Qwen__Qwen2.5-0.5B-Instruct_context_length-1_1103090507.csv".

Definition demo_s1 : State := snd (run demo_W demo_self 1 demo_s0).




(** What a run that ended in state [s'] reports as peak memory. *)
Definition reports_memory (W : World) (s' : State) : Prop :=
  exists data,
    In (EvPrint (MsgFinalResult data)) (trace s')
    /\ Z.max 0 (total_max_memory W) = total_max_memory W
    /\ dict_get "max_gpu_memory_cost_gb" data
       = PFloat (round4 (inject_Z (total_max_memory W) / 1024 / 1024 / 1024)%Q)
    /\ (Qabs (fixed4_value (round4 (GiB (total_max_memory W)))
              - GiB (total_max_memory W)) <= 1 # 20000)%Q.

(** The batch of a run has one row, whatever the object, the state and the
    context length, and a run that succeeds has tokenized one row and
    recorded batch size 1. *)
Definition batch_size_one (W : World) (self : SpeedBenchmarkTransformer)
           (L : Z) (s : State) : Prop :=
  BATCH_SIZE = 1
  /\ length (run_batch L) = 1%nat
  /\ forall self' out s',
      run W self L s = (Ok (self', out), s') ->
      exists inputs data,
        encode_batch (tokenizer self) (run_batch L) = Ok inputs
        /\ shape0 inputs = 1
        /\ In (EvPrint (MsgFinalResult data)) (trace s')
        /\ dict_get "batch_size" data = PInt 1.

Definition is_write_event (e : event) : bool :=
  match e with
  | EvWriteFile _ _ => true
  | _ => false
  end.




(** The run from [s] to [s'] wrote one file: its name is built from the model
    id, the context length and the timestamp, it is an entry of the
    directory [outputs_dir] resolves to, and no other regular file changed. *)
Definition one_file_written (W : World) (self : SpeedBenchmarkTransformer)
           (L : Z) (s s' : State) (out : string) : Prop :=
  exists mid loc content new,
    let name := str_replace sep "__" mid ++ "_context_length-" ++ str_of_Z L
                  ++ "_" ++ strftime_mdHMS (datetime_now W) ++ ".csv" in
    model_id self = Some mid
    /\ out = path_join (outputs_dir self) name
    /\ str_contains sep name = false
    /\ walk false (str_split sep (outputs_dir self))
            (start_of (getcwd W) (outputs_dir self)) (tree s') = Ok (loc, tree s')
    /\ tree s' !! (loc ++ [name])%list = Some (File content)
    /\ (forall p c, p <> (loc ++ [name])%list ->
                    tree s' !! p = Some (File c) <-> tree s !! p = Some (File c))
    /\ trace s' = (trace s ++ new)%list
    /\ List.filter is_write_event new = [EvWriteFile out content].

(** On the way from the starting directory along [outputs_dir] there is no
    regular file, the starting directory exists, and the path is not empty. *)
Definition can_make_dir (W : World) (od : string) (t : gmap location node) : Prop :=
  od <> ""
  /\ is_dir t (start_of (getcwd W) od) = true
  /\ forall p content,
      In p (visited (str_split sep od) (start_of (getcwd W) od)) ->
      t !! p <> Some (File content).

(** The run from [s] makes the output directory and then writes the file. *)
Definition creates_output_dir (W : World) (self : SpeedBenchmarkTransformer)
           (L : Z) (s : State) (mid : string) : Prop :=
  let out := path_join (outputs_dir self)
               (result_file_name mid L (strftime_mdHMS (datetime_now W))) in
  exists t1,
    fs_makedirs (getcwd W) (path_dirname out) (tree s) = Ok t1
    /\ fs_isdir (getcwd W) (outputs_dir self) t1 = true
    /\ (forall p x, tree s !! p = Some x -> t1 !! p = Some x)
    /\ (forall p x, t1 !! p = Some x ->
                    tree s !! p = Some x \/ (tree s !! p = None /\ x = Dir))
    /\ (fs_isdir (getcwd W) (outputs_dir self) (tree s) = true -> t1 = tree s)
    /\ (fst (run W self L s)
        = Ok (with_generation_config self (run_generation_config self L), out)
        \/ fst (run W self L s) = Raise (OSError EISDIR))
    /\ forall self' o s',
        run W self L s = (Ok (self', o), s') ->
        exists pre content,
          trace s' = (pre ++ [EvMakedirs (path_dirname out);
                              EvWriteFile out content;
                              EvPrint (MsgSaved out)])%list.

Definition demo_blocked : State :=
  demo_state (<[ ["home"; "user"; "out"] := File "notes" ]> demo_tree).

(** An argument list made only of the declared options and their values. *)
Inductive only_declared (table : list argument) : list string -> Prop :=
| od_nil : only_declared table []
| od_flag tok a rest :
    resolve table (fst (split_equals tok)) = IsArgument a ->
    In a table -> action a = StoreTrue ->
    only_declared table rest ->
    only_declared table (tok :: rest)
| od_inline tok a ty v rest :
    resolve table (fst (split_equals tok)) = IsArgument a ->
    In a table -> action a = Store ty ->
    snd (split_equals tok) = Some v ->
    only_declared table rest ->
    only_declared table (tok :: rest)
| od_value tok a ty v rest :
    resolve table (fst (split_equals tok)) = IsArgument a ->
    In a table -> action a = Store ty ->
    option_like v = false ->
    only_declared table rest ->
    only_declared table (tok :: v :: rest).

Definition five_dests : list string :=
  ["model_id"; "context_length"; "gpus"; "use_modelscope"; "outputs_dir"].


(** The state [set_seed(SEED)] leaves. *)
Definition seeded (s : State) : State := snd (set_seed SEED s).

Definition required_module (use_modelscope : bool) : string :=
  if use_modelscope then "modelscope" else "huggingface_hub".

Definition import_error_message (use_modelscope : bool) : string :=
  if use_modelscope
  then "Please install modelscope: pip install modelscope[framework]"
  else "Please install huggingface-hub: pip install huggingface-hub".

(** The state in which [main] calls the constructor. *)
Definition before_init (gpus : string) (mid : option string) (L : option Z)
           (s : State) : State :=
  snd (setenv "CUDA_VISIBLE_DEVICES" gpus
              (log (EvPrint (MsgSetDevices (Some gpus) mid L)) s)).

(** Errors end the program: the missing hub module, a failed download, a
    shape mismatch, and any exception of the constructor or of [run]. *)
Definition errors_surface (W : World) (mid : option string) (use_modelscope : bool)
           (od : string) (s : State) : Prop :=
  let e := ImportError (import_error_message use_modelscope) in
  (* the constructor raises ImportError and returns no instance *)
  init W mid use_modelscope od s = (Raise e, seeded s)
  (* all that has happened is the seeding of line 43 *)
  /\ rng_seed (seeded s) = Some SEED
  /\ environ (seeded s) = environ s
  /\ tree (seeded s) = tree s
  /\ clock_reads (seeded s) = clock_reads s
  /\ trace (seeded s) = (trace s ++ [EvSetSeed SEED])%list
  (* main ends with the same exception *)
  /\ (forall v1 envs v2 v5 gpus s0,
        as_opt_str envs = Some gpus -> as_opt_str v1 = mid ->
        match as_opt_str v5 with Some d => d | None => EmptyString end = od ->
        main_body W v1 envs v2 (PBool use_modelscope) v5 s0
        = (Raise e, seeded (before_init gpus mid (as_opt_int v2) s0)))
  (* nothing catches what the parser, the constructor or run raise *)
  /\ (forall argv s0 x, parse_args parser_arguments argv = Raise x ->
                        main W argv s0 = (Raise x, s0))
  /\ (forall v1 envs v2 v4 v5 gpus s0 x s1,
        as_opt_str envs = Some gpus ->
        init W (as_opt_str v1) (as_bool v4)
             (match as_opt_str v5 with Some d => d | None => EmptyString end)
             (before_init gpus (as_opt_str v1) (as_opt_int v2) s0) = (Raise x, s1) ->
        main_body W v1 envs v2 v4 v5 s0 = (Raise x, s1))
  /\ (forall v1 envs v2 v4 v5 gpus L s0 sb s1 x s2,
        as_opt_str envs = Some gpus -> as_opt_int v2 = Some L ->
        init W (as_opt_str v1) (as_bool v4)
             (match as_opt_str v5 with Some d => d | None => EmptyString end)
             (before_init gpus (as_opt_str v1) (as_opt_int v2) s0) = (Ok sb, s1) ->
        run W sb L s1 = (Raise x, s2) ->
        main_body W v1 envs v2 v4 v5 s0 = (Raise x, s2))
  (* a failed download and a shape mismatch are such exceptions *)
  /\ (forall W' h x,
        module_installed W' (required_module h) = true ->
        import_from W' "modelscope" = Ok tt ->
        import_from W' "huggingface_hub" = Ok tt ->
        import_from W' "transformers" = Ok tt ->
        snapshot_download W' (if h then ModelScope else HuggingFace) mid = Raise x ->
        fst (init W' mid h od s) = Raise x)
  /\ (forall self L inputs,
        encode_batch (tokenizer self) (run_batch L) = Ok inputs ->
        shape1 inputs <> L ->
        fst (run W self L s) = Raise AssertionError).

(** ** What the constructor, [run] and [main] leave alone *)

(** [m] relates the state it starts in to the state it ends in by [R],
    whatever its outcome. *)
Definition preserves {A} (R : State -> State -> Prop) (m : M A) : Prop :=
  forall s o s', m s = (o, s') -> R s s'.

(** From [s] to [s'] the seed, the environment, the file tree and the clock
    are untouched and the trace has only grown. *)
Definition only_logs (s s' : State) : Prop :=
  rng_seed s' = rng_seed s
  /\ environ s' = environ s
  /\ tree s' = tree s
  /\ clock_reads s' = clock_reads s
  /\ exists new, trace s' = (trace s ++ new)%list.

(** From [s] to [s'] the seed and the environment are untouched, the trace
    and the clock have only grown, and what was in the tree is still there
    and of the same kind. *)
Definition keeps_world (s s' : State) : Prop :=
  rng_seed s' = rng_seed s
  /\ environ s' = environ s
  /\ (clock_reads s <= clock_reads s')%nat
  /\ (exists new, trace s' = (trace s ++ new)%list)
  /\ (forall p, tree s !! p = Some Dir -> tree s' !! p = Some Dir)
  /\ (forall p c, tree s !! p = Some (File c) -> exists c', tree s' !! p = Some (File c')).

(** As [keeps_world], and no regular file is new or has new content: all
    that may have been added to the tree are directories. *)
Definition only_dirs_added (s s' : State) : Prop :=
  keeps_world s s'
  /\ forall p c, tree s' !! p = Some (File c) -> tree s !! p = Some (File c).

(** [m], when it raises, relates the state it starts in to the state it
    ends in by [R]. *)
Definition fails_within {A} (R : State -> State -> Prop) (m : M A) : Prop :=
  forall s e s', m s = (Raise e, s') -> R s s'.


(** ** The constructor, when nothing fails *)





(** ** Runs: what is measured, what fails, what is written *)

(** The tokenizer and the model return tensors of the shapes [run] asserts. *)
Definition measures (self : SpeedBenchmarkTransformer) (L : Z)
           (inputs pred : tensor) : Prop :=
  encode_batch (tokenizer self) (run_batch L) = Ok inputs
  /\ shape1 inputs = L
  /\ shape0 inputs = BATCH_SIZE
  /\ generate (model self) inputs (run_generation_config self L) = Ok pred
  /\ shape1 pred = GENERATE_LENGTH_PER_EXPERIMENT + L.

(** The events between the two clock readings of a run, with the readings. *)
Definition timed_section (inputs : tensor) (cfg : GenerationConfig) : list event :=
  [EvTime; EvSynchronize; EvGenerate inputs cfg; EvSynchronize; EvTime].

(** The run from [s] to [s'] read the clock twice, around the generation and
    its two synchronizations only: tokenizing comes before, the memory
    queries after. *)
Definition times_generation_only (W : World) (self : SpeedBenchmarkTransformer)
           (L : Z) (s s' : State) : Prop :=
  exists inputs pre post,
    trace s' = (trace s ++ pre
                  ++ timed_section inputs (run_generation_config self L) ++ post)%list
    /\ ~ In EvTime pre /\ ~ In EvTime post
    /\ In (EvTokenize (run_batch L)) pre
    /\ (forall i, (i < cuda_device_count W)%nat -> In (EvMaxMemoryAllocated i) post)
    /\ clock_reads s' = S (S (clock_reads s)).

(** The memory figure of the record printed by a run that ended in [s'] is
    not negative, and it is zero when the counters sum to nothing. *)
Definition memory_clamped (W : World) (s' : State) : Prop :=
  exists data f,
    In (EvPrint (MsgFinalResult data)) (trace s')
    /\ dict_get "max_gpu_memory_cost_gb" data = PFloat f
    /\ 0 <= units4 f
    /\ (total_max_memory W <= 0 -> units4 f = 0)
    /\ (cuda_device_count W = 0%nat -> units4 f = 0).

(** The run from [s] succeeds and leaves its table in the file at [loc]
    under [name], whatever was there. *)
Definition replaces_file (W : World) (self : SpeedBenchmarkTransformer) (L : Z)
           (s : State) (mid : string) (q : Q) (loc : location) : Prop :=
  let name := result_file_name mid L (strftime_mdHMS (datetime_now W)) in
  let data := result_record (Some mid) BATCH_SIZE L q
                            (GiB (Z.max 0 (total_max_memory W))) in
  exists s',
    run W self L s
    = (Ok (with_generation_config self (run_generation_config self L),
           path_join (outputs_dir self) name), s')
    /\ tree s' !! (loc ++ [name])%list
       = Some (File (to_csv (DataFrame_of_records [data]))).

(** A tree in which the result file of the demo run already exists. *)
Definition demo_tree_with_result : gmap location node :=
  <[ ["home"; "user"; "outputs"; "transformer";
      "Qwen__Qwen2.5-0.5B-Instruct_context_length-1_1103090507.csv"] := File "old" ]>
    (<[ ["home"; "user"; "outputs"; "transformer"] := Dir ]>
       (<[ ["home"; "user"; "outputs"] := Dir ]> demo_tree)).

(** ** The parsed namespace *)

(** Some token of [argv] names the option stored under [d], in full or
    abbreviated, with or without an inline value. *)
Definition mentions (table : list argument) (d : string) (argv : list string) : bool :=
  existsb (fun tok => match resolve table (fst (split_equals tok)) with
                      | IsArgument a => String.eqb (dest a) d
                      | _ => false
                      end) argv.

(** [x] is a value the option [a] can store. *)
Definition stored (a : argument) (x : pyval) : Prop :=
  match action a with
  | Store ty => exists v, convert ty v = Some x
  | StoreTrue => x = PBool true
  end.

Definition opt_int (o : option Z) : pyval :=
  match o with
  | Some z => PInt z
  | None => PNone
  end.

(** The five attributes hold values of the declared types: strings or None,
    an integer or None, a boolean, a string. *)
Definition typed_namespace (args : pydict) : Prop :=
  exists mid L gpus um od,
    args = [ ("model_id", opt_str mid); ("context_length", opt_int L);
             ("gpus", opt_str gpus); ("use_modelscope", PBool um);
             ("outputs_dir", PStr od) ].


(** The state [main] has reached when it finds no gpus to set. *)
Definition refused_devices (args : pydict) (s : State) : State :=
  log (EvPrint (MsgSetDevices None (as_opt_str (dict_get "model_id" args))
                              (as_opt_int (dict_get "context_length" args)))) s.

(** ** Further edge cases *)

(** The world [W] with another answer of [find_spec]. *)
Definition with_module_installed (f : string -> bool) (W : World) : World :=
  {| module_installed := f;
     import_from := import_from W;
     snapshot_download := snapshot_download W;
     tokenizer_from_pretrained := tokenizer_from_pretrained W;
     model_from_pretrained := model_from_pretrained W;
     generation_config_from_pretrained := generation_config_from_pretrained W;
     time_time := time_time W;
     datetime_now := datetime_now W;
     cuda_device_count := cuda_device_count W;
     cuda_max_memory_allocated := cuda_max_memory_allocated W;
     getcwd := getcwd W |}.

(** A run with context length [L] from [s] has an empty prompt and cannot
    succeed: if the tokenizer returns at all, the first [assert] fails. *)
Definition never_succeeds (W : World) (self : SpeedBenchmarkTransformer) (L : Z)
           (s : State) : Prop :=
  run_batch L = [""]
  /\ (forall inputs, encode_batch (tokenizer self) (run_batch L) = Ok inputs ->
                     fst (run W self L s) = Raise AssertionError)
  /\ forall r, fst (run W self L s) <> Ok r.

(** A date and time of the calendar. *)
Definition valid_datetime (now : datetime) : Prop :=
  (1 <= dt_month now <= 12 /\ 1 <= dt_day now <= 31 /\ dt_hour now < 24
   /\ dt_minute now < 60 /\ dt_second now < 60)%nat.


(** * Properties *)

(** ** Strings *)


Lemma str_app_assoc (a b c : string) : (a ++ b) ++ c = a ++ (b ++ c).
Proof. induction a as [|x a IH]; [reflexivity | simpl; f_equal; exact IH]. Qed.

Lemma ascii_eqb_eq (a b : ascii) : ascii_eqb a b = true <-> a = b.
Proof. unfold ascii_eqb. apply Ascii.eqb_eq. Qed.

Lemma ascii_eqb_refl (a : ascii) : ascii_eqb a a = true.
Proof. now apply ascii_eqb_eq. Qed.

Lemma str_contains_app (c : ascii) (a b : string) :
  str_contains c (a ++ b) = (str_contains c a || str_contains c b)%bool.
Proof.
  induction a as [|x a IH]; simpl; [reflexivity|].
  rewrite IH. now rewrite orb_assoc.
Qed.

(** ** The CSV reader inverts the CSV writer *)







(** ** Cells are read back at their type *)












(** ** The result record and its file *)




(** ** Stepping through the monad *)

Lemma log_logs (e : event) (s : State) : log e s = logs [e] s.
Proof. reflexivity. Qed.

Lemma logs_logs (es1 es2 : list event) (s : State) :
  logs es2 (logs es1 s) = logs (es1 ++ es2) s.
Proof. unfold logs. simpl. now rewrite app_assoc. Qed.

Lemma log_mk (e : event) seed env t n es :
  log e (Build_State seed env t n es) = Build_State seed env t n (es ++ [e]).
Proof. reflexivity. Qed.

Lemma logs_mk (es' : list event) seed env t n es :
  logs es' (Build_State seed env t n es) = Build_State seed env t n (es ++ es').
Proof. reflexivity. Qed.

Lemma tick_mk seed env t n es :
  tick (Build_State seed env t n es) = Build_State seed env t (S n) es.
Proof. reflexivity. Qed.

Lemma with_tree_mk (t' : gmap location node) seed env t n es :
  with_tree t' (Build_State seed env t n es) = Build_State seed env t' n es.
Proof. reflexivity. Qed.

Lemma sum_max_memory_spec (W : World) (n start : nat) (m : Z) (s : State) :
  sum_max_memory W start n m s
  = (Ok (m + fold_right Z.add 0 (map (cuda_max_memory_allocated W) (seq start n))),
     logs (map EvMaxMemoryAllocated (seq start n)) s).
Proof.
  revert start m s. induction n as [|n IH]; intros start m s.
  - simpl. unfold ret, logs. rewrite Z.add_0_r, app_nil_r. now destruct s.
  - simpl. unfold bind, emit. rewrite IH, log_logs, logs_logs.
    simpl. now rewrite Z.add_assoc.
Qed.

Lemma bind_ok {A B} (m : M A) (k : A -> M B) (s s' : State) (b : B) :
  bind m k s = (Ok b, s') ->
  exists a s1, m s = (Ok a, s1) /\ k a s1 = (Ok b, s').
Proof.
  unfold bind. destruct (m s) as [[a|e] s1] eqn:E; intros H.
  - now exists a, s1.
  - discriminate.
Qed.

Lemma emit_ok (e : event) (s s1 : State) (u : unit) :
  emit e s = (Ok u, s1) -> s1 = log e s.
Proof. unfold emit. now intros [= _ <-]. Qed.

Lemma lift_ok {A} (o : outcome A) (s s1 : State) (a : A) :
  lift o s = (Ok a, s1) -> o = Ok a /\ s1 = s.
Proof. unfold lift. now intros [= -> <-]. Qed.

Lemma py_assert_ok (b : bool) (s s1 : State) (u : unit) :
  py_assert b s = (Ok u, s1) -> b = true /\ s1 = s.
Proof. unfold py_assert, ret, raise. destruct b; [now intros [= _ <-] | discriminate]. Qed.

Lemma makedirs_ok (W : World) (path : string) (s s1 : State) (u : unit) :
  makedirs W path s = (Ok u, s1) ->
  exists t, fs_makedirs (getcwd W) path (tree s) = Ok t
            /\ s1 = log (EvMakedirs path) (with_tree t s).
Proof.
  unfold makedirs. destruct (fs_makedirs _ _ _) as [t|e]; [|discriminate].
  intros [= _ <-]. now exists t.
Qed.

Lemma write_file_ok (W : World) (path content : string) (s s1 : State) (u : unit) :
  write_file W path content s = (Ok u, s1) ->
  exists t, fs_write (getcwd W) path content (tree s) = Ok t
            /\ s1 = log (EvWriteFile path content) (with_tree t s).
Proof.
  unfold write_file. destruct (fs_write _ _ _ _) as [t|e]; [|discriminate].
  intros [= _ <-]. now exists t.
Qed.

Lemma py_time_ok (W : World) (s s1 : State) (t : Q) :
  py_time W s = (Ok t, s1) ->
  t = time_time W (clock_reads s) /\ s1 = log EvTime (tick s).
Proof. unfold py_time. now intros [= <- <-]. Qed.

Ltac bind_step H :=
  let a := fresh "a" in
  let s1 := fresh "s" in
  let H1 := fresh "Hstep" in
  apply bind_ok in H as (a & s1 & H1 & H);
  first
    [ apply emit_ok in H1; subst s1
    | unfold print in H1; apply emit_ok in H1; subst s1
    | idtac ].

Lemma run_ok_inv (W : World) (self self' : SpeedBenchmarkTransformer) (L : Z)
      (s s' : State) (out : string) :
  run W self L s = (Ok (self', out), s') ->
  exists inputs pred mid q t1 t2,
    let data := result_record (Some mid) BATCH_SIZE L q
                              (GiB (Z.max 0 (total_max_memory W))) in
    encode_batch (tokenizer self) (run_batch L) = Ok inputs /\
    shape1 inputs = L /\ shape0 inputs = BATCH_SIZE /\
    generate (model self) inputs (run_generation_config self L) = Ok pred /\
    shape1 pred = GENERATE_LENGTH_PER_EXPERIMENT + L /\
    true_div (inject_Z GENERATE_LENGTH_PER_EXPERIMENT) (time_cost_at W s) = Some q /\
    model_id self = Some mid /\
    out = path_join (outputs_dir self)
                    (result_file_name mid L (strftime_mdHMS (datetime_now W))) /\
    fs_makedirs (getcwd W) (path_dirname out) (tree s) = Ok t1 /\
    fs_write (getcwd W) out (to_csv (DataFrame_of_records [data])) t1 = Ok t2 /\
    self' = with_generation_config self (run_generation_config self L) /\
    s' = {| rng_seed := rng_seed s; environ := environ s; tree := t2;
            clock_reads := S (S (clock_reads s));
            trace := (trace s ++ run_events W self L inputs data out)%list |}.
Proof.
  unfold run.
  cbn [generation_config with_generation_config tokenizer model model_id outputs_dir].
  intros H.
  bind_step H. bind_step H. bind_step H.
  apply lift_ok in Hstep as [Henc ->].
  bind_step H. apply py_assert_ok in Hstep as [Hs1 ->].
  bind_step H. apply py_assert_ok in Hstep as [Hs0 ->].
  bind_step H. bind_step H.
  bind_step H. apply py_time_ok in Hstep as [-> ->].
  bind_step H. bind_step H.
  bind_step H. apply lift_ok in Hstep as [Hgen ->].
  bind_step H.
  bind_step H. apply py_time_ok in Hstep as [-> ->].
  bind_step H. apply py_assert_ok in Hstep as [Hs2 ->].
  bind_step H. rewrite sum_max_memory_spec in Hstep.
  injection Hstep as <- <-.
  bind_step H.
  bind_step H.
  destruct (true_div _ _) as [q|] eqn:Hdiv; [|discriminate].
  injection Hstep as <- <-.
  bind_step H. bind_step H.
  bind_step H.
  destruct (model_id self) as [mid|] eqn:Hmid; [|discriminate].
  injection Hstep as <- <-.
  bind_step H. apply makedirs_ok in Hstep as (t1 & Hmk & ->).
  bind_step H. unfold save_result in Hstep.
  bind_step Hstep. apply write_file_ok in Hstep0 as (t2 & Hwr & ->).
  unfold print in Hstep. apply emit_ok in Hstep. subst.
  injection H as <- <- <-.
  cbn [log logs tick with_tree clock_reads tree] in Hdiv, Hmk, Hwr.
  rewrite Z.add_0_l in Hwr |- *.
  fold (total_max_memory W) in Hwr |- *.
  exists a1, a8, mid, q, t1, t2. cbn zeta.
  apply Z.eqb_eq in Hs1, Hs0, Hs2.
  split; [exact Henc|]. split; [exact Hs1|]. split; [exact Hs0|].
  split; [exact Hgen|]. split; [exact Hs2|]. split; [reflexivity|].
  split; [reflexivity|]. split; [reflexivity|].
  split; [exact Hmk|]. split; [exact Hwr|]. split; [reflexivity|].
  clear Henc Hs1 Hs0 Hgen Hs2 Hdiv Hmk Hwr.
  set (out := path_join _ _).
  set (data := result_record _ _ _ _ _).
  set (content := to_csv _).
  set (cfg := run_generation_config _ _).
  unfold run_events. rewrite Hmid. fold cfg.
  generalize (map EvMaxMemoryAllocated (seq 0 (cuda_device_count W))) as mem.
  intros mem. destruct s as [seed env tr clk evs].
  repeat first [rewrite log_mk | rewrite logs_mk | rewrite tick_mk | rewrite with_tree_mk].
  cbn [rng_seed environ tree clock_reads trace].
  f_equal. rewrite <- !app_assoc. reflexivity.
Qed.

(** ** Splitting, joining and taking the directory of a path *)

Lemma str_split_nonnil (c : ascii) (s : string) : str_split c s <> [].
Proof.
  induction s as [|a s IH]; simpl; [discriminate|].
  destruct (ascii_eqb a c); [discriminate|].
  destruct (str_split c s); [congruence | discriminate].
Qed.

Lemma str_split_app (c : ascii) (a b : string) :
  str_split c (a ++ String c b) = (str_split c a ++ str_split c b)%list.
Proof.
  induction a as [|x a IH]; simpl.
  - now rewrite ascii_eqb_refl.
  - destruct (ascii_eqb x c); [now rewrite IH|].
    rewrite IH. pose proof (str_split_nonnil c a) as Hn.
    destruct (str_split c a); [congruence | reflexivity].
Qed.

Lemma str_split_nosep (c : ascii) (s : string) :
  str_contains c s = false -> str_split c s = [s].
Proof.
  induction s as [|a s IH]; simpl; [reflexivity|].
  intros H. apply orb_false_iff in H as [H1 H2].
  now rewrite H1, IH.
Qed.

Lemma upto_last_nosep (c : ascii) (s : string) :
  str_contains c s = false -> upto_last c s = "".
Proof.
  destruct s as [|a s]; simpl; [reflexivity|].
  intros H. apply orb_false_iff in H as [H1 H2].
  now rewrite H2, H1.
Qed.

Lemma upto_last_app (c : ascii) (a b : string) :
  str_contains c b = false ->
  upto_last c (a ++ String c b) = a ++ String c "".
Proof.
  intros Hb. induction a as [|x a IH]; simpl.
  - now rewrite Hb, ascii_eqb_refl.
  - rewrite str_contains_app. simpl. rewrite ascii_eqb_refl, orb_true_r.
    now rewrite IH.
Qed.

Lemma endswith_char_split (c : ascii) (s : string) :
  endswith_char c s = true -> exists s', s = s' ++ String c "".
Proof.
  induction s as [|a s IH]; simpl; [discriminate|].
  destruct s as [|b s].
  - intros H. apply ascii_eqb_eq in H. subst. now exists "".
  - intros H. destruct (IH H) as [s' Hs']. exists (String a s').
    simpl. now rewrite <- Hs'.
Qed.

Lemma rstrip_empty_all (c : ascii) (s : string) :
  rstrip_char c s = "" <-> all_char c s = true.
Proof.
  induction s as [|a s IH]; simpl; [tauto|].
  destruct (rstrip_char c s) eqn:E.
  - destruct (ascii_eqb a c); simpl; [tauto|]. split; discriminate.
  - split; [discriminate|]. intros H. apply andb_true_iff in H as [_ H].
    apply IH in H. discriminate.
Qed.

Lemma nonempty_comps_all (s : string) :
  all_char sep s = true -> nonempty_comps (str_split sep s) = [].
Proof.
  induction s as [|a s IH]; simpl; [reflexivity|].
  intros H. apply andb_true_iff in H as [H1 H2].
  rewrite H1. simpl. now apply IH.
Qed.

Lemma head_split_all (s : string) :
  all_char sep s = true -> hd "" (str_split sep s) = "".
Proof.
  destruct s as [|a s]; simpl; [reflexivity|].
  intros H. apply andb_true_iff in H as [H1 _]. now rewrite H1.
Qed.

(** The first component and the later non-empty ones survive [rstrip]. *)
Lemma split_rstrip (s : string) :
  hd "" (str_split sep (rstrip_char sep s)) = hd "" (str_split sep s)
  /\ nonempty_comps (tl (str_split sep (rstrip_char sep s)))
     = nonempty_comps (tl (str_split sep s)).
Proof.
  induction s as [|a s [IH1 IH2]]; [split; reflexivity|].
  simpl rstrip_char.
  pose proof (str_split_nonnil sep s) as Hn.
  pose proof (str_split_nonnil sep (rstrip_char sep s)) as Hn'.
  destruct (rstrip_char sep s) as [|b r] eqn:E.
  - assert (Hall : all_char sep s = true) by now apply rstrip_empty_all.
    pose proof (nonempty_comps_all s Hall) as Hc.
    pose proof (head_split_all s Hall) as Hh.
    destruct (ascii_eqb a sep) eqn:Ea; simpl; rewrite Ea.
    + simpl. split; [reflexivity|]. now rewrite Hc.
    + destruct (str_split sep s) as [|w ws]; [congruence|].
      simpl in Hh, Hc. subst w. simpl in Hc. simpl. split; [reflexivity|].
      now rewrite Hc.
  - remember (String b r) as x eqn:Ex. clear Ex.
    simpl str_split. destruct (ascii_eqb a sep) eqn:Ea.
    + simpl. split; [reflexivity|].
      destruct (str_split sep x) as [|w ws]; [congruence|].
      destruct (str_split sep s) as [|w' ws']; [congruence|].
      simpl in IH1, IH2. subst w'. unfold nonempty_comps in *. simpl.
      now rewrite IH2.
    + destruct (str_split sep x) as [|w ws]; [congruence|].
      destruct (str_split sep s) as [|w' ws']; [congruence|].
      simpl in IH1, IH2. subst w'. simpl. now split.
Qed.

Lemma nonempty_comps_rstrip (s : string) :
  nonempty_comps (str_split sep (rstrip_char sep s))
  = nonempty_comps (str_split sep s).
Proof.
  destruct (split_rstrip s) as [H1 H2].
  pose proof (str_split_nonnil sep s) as Hn.
  pose proof (str_split_nonnil sep (rstrip_char sep s)) as Hn'.
  destruct (str_split sep (rstrip_char sep s)) as [|w ws]; [congruence|].
  destruct (str_split sep s) as [|w' ws']; [congruence|].
  simpl in H1, H2. subst w'. unfold nonempty_comps in *. simpl.
  now rewrite H2.
Qed.

Lemma startswith_rstrip (s : string) :
  all_char sep s = false ->
  startswith_char sep (rstrip_char sep s) = startswith_char sep s.
Proof.
  destruct s as [|a s]; [reflexivity|]. simpl.
  destruct (rstrip_char sep s) eqn:E; [|reflexivity].
  apply rstrip_empty_all in E. rewrite E, andb_true_r.
  intros Ha. rewrite Ha. simpl. now rewrite Ha.
Qed.

Lemma startswith_nosep (c : ascii) (s : string) :
  str_contains c s = false -> startswith_char c s = false.
Proof.
  destruct s as [|a s]; simpl; [reflexivity|].
  intros H. now apply orb_false_iff in H as [H _].
Qed.

Lemma startswith_app (c : ascii) (a b : string) :
  a <> "" -> startswith_char c (a ++ b) = startswith_char c a.
Proof. destruct a; [congruence | reflexivity]. Qed.

Lemma nonempty_comps_snoc_sep (h : string) :
  nonempty_comps (str_split sep (h ++ String sep ""))
  = nonempty_comps (str_split sep h).
Proof.
  rewrite str_split_app. unfold nonempty_comps.
  rewrite List.filter_app. simpl. now rewrite app_nil_r.
Qed.

(** The file [os.path.join(od, name)] and its directory, for a file name
    without separator and a non-empty [od]. *)
Lemma join_dirname_facts (od name : string) :
  od <> "" ->
  str_contains sep name = false ->
  exists h,
    path_join od name = h ++ String sep name
    /\ path_dirname (path_join od name) <> ""
    /\ startswith_char sep (path_join od name) = startswith_char sep od
    /\ startswith_char sep (path_dirname (path_join od name)) = startswith_char sep od
    /\ nonempty_comps (str_split sep h) = nonempty_comps (str_split sep od)
    /\ nonempty_comps (str_split sep (path_dirname (path_join od name)))
       = nonempty_comps (str_split sep od).
Proof.
  intros Hod Hname.
  assert (Hj : exists h, path_join od name = h ++ String sep name
                         /\ startswith_char sep (h ++ String sep "") = startswith_char sep od
                         /\ nonempty_comps (str_split sep h)
                            = nonempty_comps (str_split sep od)).
  { unfold path_join. rewrite (startswith_nosep _ _ Hname).
    assert (E : String.eqb od "" = false) by now apply String.eqb_neq.
    rewrite E. simpl orb.
    destruct (endswith_char sep od) eqn:Ee.
    - destruct (endswith_char_split _ _ Ee) as [h ->]. exists h.
      rewrite str_app_assoc. simpl. split; [reflexivity|]. split; [reflexivity|].
      now rewrite nonempty_comps_snoc_sep.
    - exists od. split; [reflexivity|]. split; [|reflexivity].
      now apply startswith_app. }
  destruct Hj as (h & Hout & Hst & Hh). exists h.
  assert (Hhead : upto_last sep (path_join od name) = h ++ String sep "")
    by (rewrite Hout; now apply upto_last_app).
  assert (Hne : String.eqb (h ++ String sep "") "" = false)
    by (apply String.eqb_neq; destruct h; discriminate).
  assert (Hso : startswith_char sep (path_join od name) = startswith_char sep od).
  { rewrite Hout, <- Hst. destruct h; reflexivity. }
  unfold path_dirname. rewrite Hhead, Hne. simpl negb. simpl andb.
  destruct (all_char sep (h ++ String sep "")) eqn:Ea; simpl negb; cbv iota.
  - repeat split; try assumption.
    + destruct h; discriminate.
    + now rewrite nonempty_comps_snoc_sep.
  - repeat split; try assumption.
    + intros Hr. apply rstrip_empty_all in Hr. congruence.
    + now rewrite startswith_rstrip.
    + now rewrite nonempty_comps_rstrip, nonempty_comps_snoc_sep.
Qed.

Lemma dirname_join_empty (name : string) :
  str_contains sep name = false -> path_dirname (path_join "" name) = "".
Proof.
  intros H. unfold path_join. rewrite (startswith_nosep _ _ H). simpl.
  unfold path_dirname. now rewrite upto_last_nosep.
Qed.

(** ** The name of the result file *)

Lemma str_replace_removes (c : ascii) (by_ s : string) :
  str_contains c by_ = false -> str_contains c (str_replace c by_ s) = false.
Proof.
  intros Hb. induction s as [|a s IH]; simpl; [reflexivity|].
  destruct (ascii_eqb a c) eqn:E.
  - now rewrite str_contains_app, Hb, IH.
  - simpl. now rewrite E, IH.
Qed.

Lemma char_differs (x c : ascii) :
  is_digit c = false -> is_digit x = true -> ascii_eqb x c = false.
Proof.
  intros Hc Hx. destruct (ascii_eqb x c) eqn:E; [|reflexivity].
  apply ascii_eqb_eq in E. congruence.
Qed.

Lemma uint_string_no (c : ascii) (d : Decimal.uint) :
  is_digit c = false -> str_contains c (NilEmpty.string_of_uint d) = false.
Proof.
  intros Hc.
  induction d as [|d IH|d IH|d IH|d IH|d IH|d IH|d IH|d IH|d IH|d IH];
    cbn [NilEmpty.string_of_uint str_contains]; [reflexivity|..];
    rewrite IH, orb_false_r; now apply char_differs.
Qed.

Lemma uint0_string_no (c : ascii) (d : Decimal.uint) :
  is_digit c = false -> str_contains c (NilZero.string_of_uint d) = false.
Proof.
  intros Hc. destruct d; try now apply uint_string_no.
  cbn [NilZero.string_of_uint str_contains].
  rewrite orb_false_r. now apply char_differs.
Qed.

Lemma str_of_Z_no (c : ascii) (z : Z) :
  is_digit c = false -> ascii_eqb minus c = false ->
  str_contains c (str_of_Z z) = false.
Proof.
  intros Hd Hm. unfold str_of_Z.
  destruct (Z.to_int z) as [d|d]; cbn [NilZero.string_of_int str_contains].
  - now apply uint0_string_no.
  - rewrite uint0_string_no by assumption. rewrite orb_false_r. exact Hm.
Qed.

Lemma pad2_no (c : ascii) (n : nat) :
  is_digit c = false -> ascii_eqb minus c = false ->
  str_contains c (pad2 n) = false.
Proof.
  intros Hd Hm. unfold pad2. destruct (n <? 10)%nat.
  - cbn [str_contains]. rewrite (str_of_Z_no c _ Hd Hm), orb_false_r.
    now apply char_differs.
  - now apply str_of_Z_no.
Qed.

Lemma strftime_no (c : ascii) (now : datetime) :
  is_digit c = false -> ascii_eqb minus c = false ->
  str_contains c (strftime_mdHMS now) = false.
Proof.
  intros Hd Hm. unfold strftime_mdHMS.
  now rewrite !str_contains_app, !pad2_no.
Qed.

Lemma result_file_name_nosep (mid : string) (L : Z) (now : datetime) :
  str_contains sep (result_file_name mid L (strftime_mdHMS now)) = false.
Proof.
  unfold result_file_name.
  rewrite !str_contains_app.
  rewrite str_replace_removes by reflexivity.
  rewrite str_of_Z_no by reflexivity.
  rewrite strftime_no by reflexivity.
  reflexivity.
Qed.

Lemma result_file_name_underscore (mid : string) (L : Z) (ts : string) :
  str_contains (Ascii.ascii_of_nat 95) (result_file_name mid L ts) = true.
Proof.
  unfold result_file_name. rewrite !str_contains_app.
  change (str_contains (Ascii.ascii_of_nat 95) "_context_length-") with true.
  now rewrite orb_true_r.
Qed.

Lemma result_file_name_proper (mid : string) (L : Z) (ts : string) :
  (String.eqb (result_file_name mid L ts) ""
   || String.eqb (result_file_name mid L ts) "."
   || String.eqb (result_file_name mid L ts) "..")%bool = false.
Proof.
  pose proof (result_file_name_underscore mid L ts) as H.
  destruct (String.eqb_spec (result_file_name mid L ts) "") as [E|_];
    [rewrite E in H; discriminate|].
  destruct (String.eqb_spec (result_file_name mid L ts) ".") as [E|_];
    [rewrite E in H; discriminate|].
  destruct (String.eqb_spec (result_file_name mid L ts) "..") as [E|_];
    [rewrite E in H; discriminate|].
  reflexivity.
Qed.

(** ** Walking the file tree *)

Lemma ok_part_Ok {A} (o : outcome A) (a : A) : ok_part o = Some a -> o = Ok a.
Proof. destruct o; simpl; congruence. Qed.

Lemma walk_cons (create : bool) (c : string) (rest : list string)
      (loc : location) (t : gmap location node) :
  walk create (c :: rest) loc t
  = if (String.eqb c "" || String.eqb c ".")%bool then walk create rest loc t
    else if String.eqb c ".." then walk create rest (removelast loc) t
    else match t !! (loc ++ [c])%list with
         | Some Dir => walk create rest (loc ++ [c])%list t
         | Some (File _) =>
             Raise (OSError (match rest with [] => EEXIST | _ => ENOTDIR end))
         | None =>
             if create
             then walk create rest (loc ++ [c])%list (<[(loc ++ [c])%list := Dir]> t)
             else Raise (OSError ENOENT)
         end.
Proof. reflexivity. Qed.

Lemma nonempty_comps_cons (c : string) (rest : list string) :
  nonempty_comps (c :: rest)
  = if String.eqb c "" then nonempty_comps rest else c :: nonempty_comps rest.
Proof. unfold nonempty_comps. cbn [List.filter]. now destruct (String.eqb c ""). Qed.

Lemma walk_nonempty_comps (create : bool) (comps : list string) (loc : location)
      (t : gmap location node) :
  ok_part (walk create comps loc t)
  = ok_part (walk create (nonempty_comps comps) loc t).
Proof.
  revert loc t. induction comps as [|c rest IH]; intros loc t; [reflexivity|].
  rewrite nonempty_comps_cons.
  destruct (String.eqb c "") eqn:E0.
  - rewrite walk_cons, E0. cbn [orb]. apply IH.
  - rewrite !walk_cons, E0. cbn [orb].
    destruct (String.eqb c "."); [apply IH|].
    destruct (String.eqb c ".."); [apply IH|].
    destruct (t !! (loc ++ [c])%list) as [[|content]|].
    + apply IH.
    + reflexivity.
    + destruct create; [apply IH | reflexivity].
Qed.

Lemma walk_false_same (comps : list string) (loc loc' : location)
      (t t' : gmap location node) :
  walk false comps loc t = Ok (loc', t') -> t' = t.
Proof.
  revert loc. induction comps as [|c rest IH]; intros loc.
  - simpl. now intros [= _ <-].
  - rewrite walk_cons.
    destruct (String.eqb c "" || String.eqb c ".")%bool; [apply IH|].
    destruct (String.eqb c ".."); [apply IH|].
    destruct (t !! (loc ++ [c])%list) as [[|content]|]; [apply IH | discriminate..].
Qed.

Lemma walk_false_true (comps : list string) (loc : location)
      (t : gmap location node) (r : location * gmap location node) :
  walk false comps loc t = Ok r -> walk true comps loc t = Ok r.
Proof.
  revert loc. induction comps as [|c rest IH]; intros loc; [simpl; tauto|].
  rewrite !walk_cons.
  destruct (String.eqb c "" || String.eqb c ".")%bool; [apply IH|].
  destruct (String.eqb c ".."); [apply IH|].
  destruct (t !! (loc ++ [c])%list) as [[|content]|]; [apply IH | discriminate..].
Qed.

(** What [os.makedirs] does to the tree: it only adds directories, and
    afterwards the path resolves. *)
Lemma walk_true_spec (comps : list string) (loc loc' : location)
      (t t' : gmap location node) :
  walk true comps loc t = Ok (loc', t') ->
  (forall p x, t !! p = Some x -> t' !! p = Some x)
  /\ (forall p x, t' !! p = Some x -> t !! p = Some x \/ (t !! p = None /\ x = Dir))
  /\ walk false comps loc t' = Ok (loc', t').
Proof.
  revert loc t. induction comps as [|c rest IH]; intros loc t.
  - simpl. intros [= <- <-]. split; [auto|]. split; [auto|]. reflexivity.
  - rewrite !walk_cons.
    destruct (String.eqb c "" || String.eqb c ".")%bool; [apply IH|].
    destruct (String.eqb c ".."); [apply IH|].
    destruct (t !! (loc ++ [c])%list) as [[|content]|] eqn:E.
    + intros H. destruct (IH _ _ H) as (K1 & K2 & K3).
      split; [exact K1|]. split; [exact K2|].
      rewrite (K1 _ _ E). exact K3.
    + discriminate.
    + intros H. destruct (IH _ _ H) as (K1 & K2 & K3).
      assert (Hp : t' !! (loc ++ [c])%list = Some Dir)
        by (apply K1; apply lookup_insert_eq).
      split; [|split].
      * intros p x Hx. apply K1.
        destruct (decide (p = (loc ++ [c])%list)) as [->|Hne]; [congruence|].
        rewrite lookup_insert_ne by congruence. exact Hx.
      * intros p x Hx. destruct (K2 _ _ Hx) as [Hy|[Hy ->]].
        -- destruct (decide (p = (loc ++ [c])%list)) as [->|Hne].
           ++ rewrite lookup_insert_eq in Hy. injection Hy as <-. now right.
           ++ rewrite lookup_insert_ne in Hy by congruence. now left.
        -- destruct (decide (p = (loc ++ [c])%list)) as [->|Hne].
           ++ rewrite lookup_insert_eq in Hy. discriminate.
           ++ rewrite lookup_insert_ne in Hy by congruence. now right.
      * rewrite Hp. exact K3.
Qed.

(** [os.makedirs] can only be stopped by a regular file on its way. *)
Lemma walk_true_total (comps : list string) (loc : location)
      (t : gmap location node) :
  (forall p content, In p (visited comps loc) -> t !! p <> Some (File content)) ->
  exists r, walk true comps loc t = Ok r.
Proof.
  revert loc t. induction comps as [|c rest IH]; intros loc t Hfree.
  - simpl. eauto.
  - rewrite walk_cons. cbn [visited] in Hfree.
    destruct (String.eqb c "" || String.eqb c ".")%bool; [now apply IH|].
    destruct (String.eqb c ".."); [now apply IH|].
    destruct (t !! (loc ++ [c])%list) as [[|content]|] eqn:E.
    + apply IH. intros p x Hin. apply Hfree. now right.
    + exfalso. apply (Hfree (loc ++ [c])%list content); [now left | exact E].
    + apply IH. intros p x Hin.
      destruct (decide (p = (loc ++ [c])%list)) as [->|Hne].
      * rewrite lookup_insert_eq. discriminate.
      * rewrite lookup_insert_ne by congruence. apply Hfree. now right.
Qed.

Lemma visited_nonempty_comps (comps : list string) (loc : location) :
  visited (nonempty_comps comps) loc = visited comps loc.
Proof.
  revert loc. induction comps as [|c rest IH]; intros loc; [reflexivity|].
  rewrite nonempty_comps_cons.
  destruct (String.eqb c "") eqn:E0.
  - cbn [visited]. rewrite E0. cbn [orb]. apply IH.
  - cbn [visited]. rewrite E0. cbn [orb].
    destruct (String.eqb c "."); [apply IH|].
    destruct (String.eqb c ".."); [apply IH|].
    now rewrite IH.
Qed.

Lemma split_last_snoc (xs : list string) (x : string) :
  split_last (xs ++ [x]) = (xs, x).
Proof.
  induction xs as [|y xs IH]; [reflexivity|].
  simpl. rewrite IH. destruct (xs ++ [x])%list eqn:E; [|reflexivity].
  now destruct xs.
Qed.

(** ** [os.makedirs] followed by the write, on the paths of [run] *)

Lemma start_of_eq (cwd : location) (p q : string) :
  startswith_char sep p = startswith_char sep q -> start_of cwd p = start_of cwd q.
Proof. unfold start_of. now intros ->. Qed.

Lemma is_dir_mono (t t' : gmap location node) (p : location) :
  (forall q x, t !! q = Some x -> t' !! q = Some x) ->
  is_dir t p = true -> is_dir t' p = true.
Proof.
  intros K. unfold is_dir. destruct p as [|a p]; [reflexivity|].
  destruct (t !! (a :: p)) as [[|content]|] eqn:E; try discriminate.
  now rewrite (K _ _ E).
Qed.

Lemma walk_same_comps (create : bool) (xs ys : list string) (loc : location)
      (t : gmap location node) (r : location * gmap location node) :
  nonempty_comps xs = nonempty_comps ys ->
  walk create xs loc t = Ok r -> walk create ys loc t = Ok r.
Proof.
  intros E H. apply ok_part_Ok.
  rewrite walk_nonempty_comps, <- E, <- walk_nonempty_comps.
  now rewrite H.
Qed.

Lemma makedirs_then_locate (cwd : location) (od name : string)
      (t t1 : gmap location node) :
  od <> "" ->
  str_contains sep name = false ->
  (String.eqb name "" || String.eqb name "." || String.eqb name "..")%bool = false ->
  fs_makedirs cwd (path_dirname (path_join od name)) t = Ok t1 ->
  exists loc,
    walk false (str_split sep od) (start_of cwd od) t1 = Ok (loc, t1)
    /\ fs_isdir cwd od t1 = true
    /\ (forall p x, t !! p = Some x -> t1 !! p = Some x)
    /\ (forall p x, t1 !! p = Some x -> t !! p = Some x \/ (t !! p = None /\ x = Dir))
    /\ fs_locate cwd (path_join od name) t1
       = match t1 !! (loc ++ [name])%list with
         | Some Dir => Raise (OSError EISDIR)
         | _ => Ok (loc ++ [name])%list
         end.
Proof.
  intros Hod Hname Hproper Hmk.
  destruct (join_dirname_facts od name Hod Hname)
    as (h & Hout & Hd & Hso & Hsd & Hh & Hcd).
  set (d := path_dirname (path_join od name)) in *.
  unfold fs_makedirs in Hmk.
  assert (Ed : String.eqb d "" = false) by now apply String.eqb_neq.
  rewrite Ed in Hmk.
  rewrite (start_of_eq cwd d od Hsd) in Hmk.
  destruct (is_dir t (start_of cwd od)) eqn:Hstart; [|discriminate].
  simpl negb in Hmk. cbv iota in Hmk.
  destruct (walk true (str_split sep d) (start_of cwd od) t) as [[loc t']|e] eqn:Hw;
    [|discriminate].
  injection Hmk as ->.
  destruct (walk_true_spec _ _ _ _ _ Hw) as (K1 & K2 & K3).
  assert (Hres : walk false (str_split sep od) (start_of cwd od) t1 = Ok (loc, t1))
    by exact (walk_same_comps _ _ _ _ _ _ Hcd K3).
  assert (Hstart1 : is_dir t1 (start_of cwd od) = true)
    by exact (is_dir_mono _ _ _ K1 Hstart).
  exists loc. split; [exact Hres|]. split.
  { unfold fs_isdir. rewrite Hres, Hstart1.
    assert (E : String.eqb od "" = false) by now apply String.eqb_neq.
    now rewrite E. }
  split; [exact K1|]. split; [exact K2|].
  unfold fs_locate. rewrite Hout, str_split_app, (str_split_nosep _ _ Hname).
  rewrite split_last_snoc. rewrite <- Hout.
  rewrite (start_of_eq cwd (path_join od name) od Hso), Hstart1.
  simpl negb. cbv iota.
  assert (Hh' : nonempty_comps (str_split sep od) = nonempty_comps (str_split sep h))
    by now symmetry.
  rewrite (walk_same_comps _ _ _ _ _ _ Hh' Hres).
  now rewrite Hproper.
Qed.

Lemma makedirs_existing (cwd : location) (od name : string)
      (t : gmap location node) :
  str_contains sep name = false ->
  fs_isdir cwd od t = true ->
  fs_makedirs cwd (path_dirname (path_join od name)) t = Ok t.
Proof.
  intros Hname Hdir. unfold fs_isdir in Hdir.
  apply andb_true_iff in Hdir as [Hdir Hw]. apply andb_true_iff in Hdir as [Hne Hstart].
  apply negb_true_iff, String.eqb_neq in Hne.
  destruct (join_dirname_facts od name Hne Hname)
    as (h & Hout & Hd & Hso & Hsd & Hh & Hcd).
  destruct (walk false (str_split sep od) (start_of cwd od) t) as [[loc t']|e] eqn:Hwalk;
    [|discriminate].
  pose proof (walk_false_same _ _ _ _ _ Hwalk) as ->.
  unfold fs_makedirs.
  assert (Ed : String.eqb (path_dirname (path_join od name)) "" = false)
    by now apply String.eqb_neq.
  rewrite Ed, (start_of_eq cwd _ od Hsd), Hstart. simpl negb. cbv iota.
  assert (Hcd' : nonempty_comps (str_split sep od)
                 = nonempty_comps (str_split sep (path_dirname (path_join od name))))
    by now symmetry.
  now rewrite (walk_same_comps _ _ _ _ _ _ Hcd' (walk_false_true _ _ _ _ Hwalk)).
Qed.

Lemma makedirs_total (cwd : location) (od name : string)
      (t : gmap location node) :
  od <> "" ->
  str_contains sep name = false ->
  is_dir t (start_of cwd od) = true ->
  (forall p content, In p (visited (str_split sep od) (start_of cwd od)) ->
                     t !! p <> Some (File content)) ->
  exists t1, fs_makedirs cwd (path_dirname (path_join od name)) t = Ok t1.
Proof.
  intros Hod Hname Hstart Hfree.
  destruct (join_dirname_facts od name Hod Hname)
    as (h & Hout & Hd & Hso & Hsd & Hh & Hcd).
  unfold fs_makedirs.
  assert (Ed : String.eqb (path_dirname (path_join od name)) "" = false)
    by now apply String.eqb_neq.
  rewrite Ed, (start_of_eq cwd _ od Hsd), Hstart. simpl negb. cbv iota.
  destruct (walk_true_total (str_split sep (path_dirname (path_join od name)))
                            (start_of cwd od) t) as [[loc t1] Hw].
  { intros p content Hin. apply Hfree.
    rewrite <- visited_nonempty_comps, <- Hcd, visited_nonempty_comps. exact Hin. }
  rewrite Hw. now exists t1.
Qed.

(** ** Running forward *)

Lemma bind_emit {B} (e : event) (k : unit -> M B) (s : State) :
  bind (emit e) k s = k tt (log e s).
Proof. reflexivity. Qed.

Lemma bind_print {B} (m : message) (k : unit -> M B) (s : State) :
  bind (print m) k s = k tt (log (EvPrint m) s).
Proof. reflexivity. Qed.

Lemma bind_ret {A B} (a : A) (k : A -> M B) (s : State) :
  bind (ret a) k s = k a s.
Proof. reflexivity. Qed.

Lemma bind_raise {A B} (e : exn) (k : A -> M B) (s : State) :
  bind (raise e) k s = (Raise e, s).
Proof. reflexivity. Qed.

Lemma bind_lift_Ok {A B} (o : outcome A) (a : A) (k : A -> M B) (s : State) :
  o = Ok a -> bind (lift o) k s = k a s.
Proof. now intros ->. Qed.

Lemma bind_assert_true {B} (b : bool) (k : unit -> M B) (s : State) :
  b = true -> bind (py_assert b) k s = k tt s.
Proof. now intros ->. Qed.

Lemma bind_py_time {B} (W : World) (k : Q -> M B) (s : State) :
  bind (py_time W) k s = k (time_time W (clock_reads s)) (log EvTime (tick s)).
Proof. reflexivity. Qed.

Lemma bind_sum_max_memory {B} (W : World) (k : Z -> M B) (s : State) :
  bind (sum_max_memory W 0 (cuda_device_count W) 0) k s
  = k (total_max_memory W)
      (logs (map EvMaxMemoryAllocated (seq 0 (cuda_device_count W))) s).
Proof. unfold bind. now rewrite sum_max_memory_spec, Z.add_0_l. Qed.

Lemma bind_makedirs {B} (W : World) (path : string) (k : unit -> M B) (s : State) :
  bind (makedirs W path) k s
  = match fs_makedirs (getcwd W) path (tree s) with
    | Ok t => k tt (log (EvMakedirs path) (with_tree t s))
    | Raise e => (Raise e, s)
    end.
Proof. unfold bind, makedirs. now destruct (fs_makedirs _ _ _). Qed.

Lemma bind_write_file {B} (W : World) (path content : string)
      (k : unit -> M B) (s : State) :
  bind (write_file W path content) k s
  = match fs_write (getcwd W) path content (tree s) with
    | Ok t => k tt (log (EvWriteFile path content) (with_tree t s))
    | Raise e => (Raise e, s)
    end.
Proof. unfold bind, write_file. now destruct (fs_write _ _ _ _). Qed.

Lemma tree_log (e : event) (s : State) : tree (log e s) = tree s.
Proof. reflexivity. Qed.

Lemma tree_logs (es : list event) (s : State) : tree (logs es s) = tree s.
Proof. reflexivity. Qed.

Lemma tree_tick (s : State) : tree (tick s) = tree s.
Proof. reflexivity. Qed.

Lemma tree_with_tree (t : gmap location node) (s : State) : tree (with_tree t s) = t.
Proof. reflexivity. Qed.

Lemma clock_log (e : event) (s : State) : clock_reads (log e s) = clock_reads s.
Proof. reflexivity. Qed.

Lemma clock_tick (s : State) : clock_reads (tick s) = S (clock_reads s).
Proof. reflexivity. Qed.

(** The outcome of a run whose tokenizer and generator return tensors of the
    asserted shapes. *)
Lemma run_outcome (W : World) (self : SpeedBenchmarkTransformer) (L : Z)
      (s : State) (inputs pred : tensor) :
  encode_batch (tokenizer self) (run_batch L) = Ok inputs ->
  shape1 inputs = L ->
  shape0 inputs = BATCH_SIZE ->
  generate (model self) inputs (run_generation_config self L) = Ok pred ->
  shape1 pred = GENERATE_LENGTH_PER_EXPERIMENT + L ->
  fst (run W self L s)
  = match true_div (inject_Z GENERATE_LENGTH_PER_EXPERIMENT) (time_cost_at W s) with
    | None => Raise ZeroDivisionError
    | Some q =>
        match model_id self with
        | None => Raise AttributeError
        | Some mid =>
            let out := path_join (outputs_dir self)
                         (result_file_name mid L (strftime_mdHMS (datetime_now W))) in
            let data := result_record (Some mid) BATCH_SIZE L q
                          (GiB (Z.max 0 (total_max_memory W))) in
            match fs_makedirs (getcwd W) (path_dirname out) (tree s) with
            | Raise e => Raise e
            | Ok t1 =>
                match fs_write (getcwd W) out (to_csv (DataFrame_of_records [data])) t1 with
                | Raise e => Raise e
                | Ok _ =>
                    Ok (with_generation_config self (run_generation_config self L), out)
                end
            end
        end
    end.
Proof.
  intros Henc Hs1 Hs0 Hgen Hs2.
  apply Z.eqb_eq in Hs1, Hs0.
  assert (Hs2' : (shape1 pred =? min_length (run_generation_config self L)) = true)
    by now apply Z.eqb_eq.
  unfold run.
  cbn [generation_config with_generation_config tokenizer model model_id outputs_dir].
  rewrite bind_print, bind_emit.
  rewrite (bind_lift_Ok _ _ _ _ Henc).
  rewrite (bind_assert_true _ _ _ Hs1), (bind_assert_true _ _ _ Hs0).
  rewrite bind_emit, bind_print, bind_py_time, !bind_emit.
  rewrite (bind_lift_Ok _ _ _ _ Hgen).
  rewrite bind_emit, bind_py_time.
  rewrite (bind_assert_true _ _ _ Hs2').
  rewrite bind_sum_max_memory, bind_emit.
  rewrite !clock_log, clock_tick, !clock_log.
  fold (time_cost_at W s).
  destruct (true_div _ (time_cost_at W s)) as [q|]; [|reflexivity].
  rewrite bind_ret, bind_print, bind_emit.
  destruct (model_id self) as [mid|]; [|reflexivity].
  rewrite bind_ret, bind_makedirs.
  rewrite !tree_log, tree_logs, tree_log, tree_tick, !tree_log, tree_tick, !tree_log.
  cbn zeta.
  destruct (fs_makedirs _ _ _) as [t1|e]; [|reflexivity].
  unfold save_result. unfold bind at 1. rewrite bind_write_file.
  rewrite tree_log, tree_with_tree.
  destruct (fs_write _ _ _ _) as [t2|e]; reflexivity.
Qed.

(** ** Only the file system raises [OSError] *)




(** ** Rounding to four decimals *)

Lemma round_half_even_near (n : Z) (d : positive) :
  2 * Z.abs (round_half_even n d * Z.pos d - n) <= Z.pos d.
Proof.
  unfold round_half_even.
  pose proof (Z.div_mod n (Z.pos d) ltac:(lia)) as Hdm.
  pose proof (Z.mod_pos_bound n (Z.pos d) ltac:(lia)) as Hb.
  set (fl := n / Z.pos d) in *. set (r := n mod Z.pos d) in *.
  destruct (2 * r <? Z.pos d) eqn:E1.
  - apply Z.ltb_lt in E1. nia.
  - apply Z.ltb_ge in E1. destruct (Z.pos d <? 2 * r) eqn:E2.
    + apply Z.ltb_lt in E2. nia.
    + apply Z.ltb_ge in E2. destruct (Z.even fl); nia.
Qed.

(** [round4 x] is a multiple of 1/10000 nearest to [x]. *)
Lemma round4_near (x : Q) :
  (Qabs (fixed4_value (round4 x) - x) <= 1 # 20000)%Q.
Proof.
  destruct x as [n d]. unfold round4, fixed4_value. cbn [units4 Qnum Qden].
  pose proof (round_half_even_near (n * 10000) d) as H.
  set (k := round_half_even (n * 10000) d) in *.
  apply Qabs_Qle_condition. unfold Qle, Qminus, Qplus, Qopp. cbn [Qnum Qden].
  split; nia.
Qed.

(** ** The demo run *)

Lemma pair_of_fst {A B} (r : A * B) (a : A) : fst r = a -> r = (a, snd r).
Proof. intros <-. now destruct r. Qed.

(** Evaluate a concrete run whose final state is named by [snd] of the run. *)
Ltac eval_run s1 :=
  unfold s1;
  match goal with
  | |- ?r = (?a, snd ?r) => apply (pair_of_fst r a); vm_compute; reflexivity
  end.

Lemma demo_run_ok :
  run demo_W demo_self 1 demo_s0 = (Ok (demo_self', demo_out), demo_s1).
Proof. eval_run demo_s1. Qed.

(** ** C1: tokens per second *)


Lemma in_run_events_final (W : World) (self : SpeedBenchmarkTransformer) (L : Z)
      (inputs : tensor) (data : pydict) (out : string) (pre : list event) :
  In (EvPrint (MsgFinalResult data)) (pre ++ run_events W self L inputs data out).
Proof.
  apply in_or_app. right. unfold run_events.
  apply in_or_app. right. apply in_or_app. right.
  right. left. reflexivity.
Qed.




(** ** C2: the shape assertions *)



(** A generator that honours [min_length] and [max_new_tokens] produces the
    asserted length whenever the input has the asserted length. *)
Lemma generate_length_forced (self : SpeedBenchmarkTransformer) (L : Z)
      (inputs pred : tensor) (new : Z) :
  shape1 inputs = L ->
  max_new_tokens (run_generation_config self L) = Some new ->
  min_length (run_generation_config self L) <= shape1 pred <= shape1 inputs + new ->
  shape1 pred = L + GENERATE_LENGTH_PER_EXPERIMENT.
Proof.
  cbn [run_generation_config min_length max_new_tokens].
  intros H1 [= <-] H3. lia.
Qed.

(** ** C8: peak GPU memory *)

Lemma total_max_memory_nonneg (W : World) :
  (forall i, 0 <= cuda_max_memory_allocated W i) -> 0 <= total_max_memory W.
Proof.
  intros H. unfold total_max_memory.
  induction (seq 0 (cuda_device_count W)) as [|i l IH]; simpl; [lia|].
  specialize (H i). lia.
Qed.

(** C8: for every successful run the max_gpu_memory_cost_gb field is the
    sum over the visible CUDA devices of the maximum allocated byte count,
    divided by 1024 three times and rounded to four decimals; taking the
    maximum with 0 does not change the sum, which is non-negative. *)
Theorem C8_peak_memory (W : World) (self self' : SpeedBenchmarkTransformer)
        (L : Z) (s s' : State) (out : string) :
  (forall i, 0 <= cuda_max_memory_allocated W i) ->
  run W self L s = (Ok (self', out), s') ->
  reports_memory W s'.
Proof.
  intros Hmem H. apply run_ok_inv in H
    as (inputs & pred & mid & q & t1 & t2 & Henc & Hs1 & Hs0 & Hgen & Hs2
        & Hdiv & Hmid & Hout & Hmk & Hwr & Hself & Hs').
  pose proof (total_max_memory_nonneg W Hmem) as Hnn.
  assert (Hmax : Z.max 0 (total_max_memory W) = total_max_memory W) by lia.
  exists (result_record (Some mid) BATCH_SIZE L q (GiB (Z.max 0 (total_max_memory W)))).
  split; [rewrite Hs'; apply in_run_events_final|].
  split; [exact Hmax|].
  split; [rewrite Hmax; reflexivity | apply round4_near].
Qed.

Lemma C8_witness :
  (forall i, 0 <= cuda_max_memory_allocated demo_W i)
  /\ run demo_W demo_self 1 demo_s0 = (Ok (demo_self', demo_out), demo_s1)
  /\ reports_memory demo_W demo_s1.
Proof.
  assert (H1 : forall i, 0 <= cuda_max_memory_allocated demo_W i)
    by (intros i; simpl; lia).
  assert (H2 : run demo_W demo_self 1 demo_s0 = (Ok (demo_self', demo_out), demo_s1))
    by (eval_run demo_s1).
  split; [exact H1|]. split; [exact H2|].
  exact (C8_peak_memory demo_W demo_self demo_self' 1 demo_s0 demo_s1 demo_out H1 H2).
Defined.

(** ** C9: the batch size *)

(** C9: the batch size is 1 throughout: BATCH_SIZE is the constant 1, the
    synthetic input batch has one row, and the batch_size field of every
    result record is 1, for every object, state and context length. *)
Theorem C9_batch_size (W : World) (self : SpeedBenchmarkTransformer)
        (L : Z) (s : State) :
  batch_size_one W self L s.
Proof.
  split; [reflexivity|]. split; [reflexivity|].
  intros self' out s' H. apply run_ok_inv in H
    as (inputs & pred & mid & q & t1 & t2 & Henc & Hs1 & Hs0 & Hgen & Hs2
        & Hdiv & Hmid & Hout & Hmk & Hwr & Hself & Hs').
  exists inputs,
    (result_record (Some mid) BATCH_SIZE L q (GiB (Z.max 0 (total_max_memory W)))).
  split; [exact Henc|]. split; [exact Hs0|].
  split; [rewrite Hs'; apply in_run_events_final | reflexivity].
Qed.

(** ** The file a successful run leaves in the tree *)

Lemma run_ok_tree (W : World) (self self' : SpeedBenchmarkTransformer) (L : Z)
      (s s' : State) (out : string) :
  run W self L s = (Ok (self', out), s') ->
  exists mid q loc t1 inputs,
    let name := result_file_name mid L (strftime_mdHMS (datetime_now W)) in
    let data := result_record (Some mid) BATCH_SIZE L q
                              (GiB (Z.max 0 (total_max_memory W))) in
    model_id self = Some mid
    /\ out = path_join (outputs_dir self) name
    /\ outputs_dir self <> ""
    /\ fs_makedirs (getcwd W) (path_dirname out) (tree s) = Ok t1
    /\ walk false (str_split sep (outputs_dir self))
            (start_of (getcwd W) (outputs_dir self)) t1 = Ok (loc, t1)
    /\ fs_isdir (getcwd W) (outputs_dir self) t1 = true
    /\ (forall p x, tree s !! p = Some x -> t1 !! p = Some x)
    /\ (forall p x, t1 !! p = Some x ->
                    tree s !! p = Some x \/ (tree s !! p = None /\ x = Dir))
    /\ t1 !! (loc ++ [name])%list <> Some Dir
    /\ tree s' = <[(loc ++ [name])%list := File (to_csv (DataFrame_of_records [data]))]> t1
    /\ trace s' = (trace s ++ run_events W self L inputs data out)%list.
Proof.
  intros H. apply run_ok_inv in H
    as (inputs & pred & mid & q & t1 & t2 & Henc & Hs1 & Hs0 & Hgen & Hs2
        & Hdiv & Hmid & Hout & Hmk & Hwr & Hself & Hs').
  pose proof (result_file_name_nosep mid L (datetime_now W)) as Hns.
  pose proof (result_file_name_proper mid L (strftime_mdHMS (datetime_now W))) as Hpr.
  set (name := result_file_name mid L (strftime_mdHMS (datetime_now W))) in *.
  assert (Hod : outputs_dir self <> "").
  { intros E. rewrite Hout, E, dirname_join_empty in Hmk by exact Hns.
    discriminate. }
  rewrite Hout in Hmk, Hwr.
  destruct (makedirs_then_locate _ _ _ _ _ Hod Hns Hpr Hmk)
    as (loc & Hres & Hisdir & K1 & K2 & Hloc).
  unfold fs_write in Hwr. rewrite Hloc in Hwr.
  exists mid, q, loc, t1, inputs. cbn zeta. fold name.
  split; [exact Hmid|]. split; [exact Hout|]. split; [exact Hod|].
  split; [rewrite Hout; exact Hmk|].
  split; [exact Hres|]. split; [exact Hisdir|].
  split; [exact K1|]. split; [exact K2|].
  destruct (t1 !! (loc ++ [name])%list) as [[|c]|] eqn:E; try discriminate.
  - injection Hwr as <-. split; [discriminate|]. split; [|rewrite Hs'; reflexivity].
    now rewrite Hs'.
  - injection Hwr as <-. split; [discriminate|]. split; [|rewrite Hs'; reflexivity].
    now rewrite Hs'.
Qed.

Lemma walk_false_insert_file (comps : list string) (loc l : location)
      (t : gmap location node) (p : location) (c : string) :
  walk false comps loc t = Ok (l, t) ->
  t !! p <> Some Dir ->
  walk false comps loc (<[p := File c]> t) = Ok (l, <[p := File c]> t).
Proof.
  intros H Hp. revert loc H. induction comps as [|x rest IH]; intros loc.
  - simpl. now intros [= ->].
  - rewrite !walk_cons.
    destruct (String.eqb x "" || String.eqb x ".")%bool; [apply IH|].
    destruct (String.eqb x ".."); [apply IH|].
    destruct (t !! (loc ++ [x])%list) as [[|content]|] eqn:E; try discriminate.
    assert (Hne : p <> (loc ++ [x])%list) by congruence.
    rewrite lookup_insert_ne by exact Hne. rewrite E. apply IH.
Qed.

Lemma no_write_in_memory_events (l : list nat) :
  List.filter is_write_event (map EvMaxMemoryAllocated l) = [].
Proof. induction l as [|i l IH]; [reflexivity | exact IH]. Qed.

Lemma run_events_one_write (W : World) (self : SpeedBenchmarkTransformer) (L : Z)
      (inputs : tensor) (data : pydict) (out : string) :
  List.filter is_write_event (run_events W self L inputs data out)
  = [EvWriteFile out (to_csv (DataFrame_of_records [data]))].
Proof.
  unfold run_events. rewrite !List.filter_app, no_write_in_memory_events.
  reflexivity.
Qed.


(** ** C3: the fields of the result record *)



(** ** C5: reading the file back *)



(** ** C6: one file, under the outputs directory *)

(** C6: every successful run writes exactly one file; it lies in the
    configured outputs directory, its name is the model identifier with '/'
    replaced by '__', followed by the context length and the timestamp of
    the run, and run returns its path. *)
Theorem C6_one_output_file (W : World) (self self' : SpeedBenchmarkTransformer)
        (L : Z) (s s' : State) (out : string) :
  run W self L s = (Ok (self', out), s') ->
  one_file_written W self L s s' out.
Proof.
  intros H. apply run_ok_tree in H
    as (mid & q & loc & t1 & inputs & Hmid & Hout & Hod & Hmk & Hres & Hdir
        & K1 & K2 & Hnd & Htree & Htrace).
  cbn zeta in *.
  set (data := result_record (Some mid) BATCH_SIZE L q
                             (GiB (Z.max 0 (total_max_memory W)))) in *.
  exists mid, loc, (to_csv (DataFrame_of_records [data])),
    (run_events W self L inputs data out).
  cbn zeta. fold (result_file_name mid L (strftime_mdHMS (datetime_now W))).
  set (name := result_file_name mid L (strftime_mdHMS (datetime_now W))) in *.
  split; [exact Hmid|]. split; [exact Hout|].
  split; [apply result_file_name_nosep|].
  split; [rewrite Htree; now apply walk_false_insert_file|].
  split; [rewrite Htree; apply lookup_insert_eq|].
  split.
  { intros p c Hp. rewrite Htree, lookup_insert_ne by congruence. split.
    - intros Hf. destruct (K2 _ _ Hf) as [Hx|[_ Hx]]; [exact Hx | discriminate].
    - apply K1. }
  split; [exact Htrace | apply run_events_one_write].
Qed.

Lemma C6_witness :
  run demo_W demo_self 1 demo_s0 = (Ok (demo_self', demo_out), demo_s1)
  /\ one_file_written demo_W demo_self 1 demo_s0 demo_s1 demo_out.
Proof.
  assert (H : run demo_W demo_self 1 demo_s0 = (Ok (demo_self', demo_out), demo_s1))
    by (eval_run demo_s1).
  split; [exact H|].
  exact (C6_one_output_file demo_W demo_self demo_self' 1 demo_s0 demo_s1 demo_out H).
Defined.

(** ** C10: the output directory *)

Lemma run_events_tail (W : World) (self : SpeedBenchmarkTransformer) (L : Z)
      (inputs : tensor) (data : pydict) (out : string) (pre : list event) :
  exists pre',
    (pre ++ run_events W self L inputs data out)%list
    = (pre' ++ [EvMakedirs (path_dirname out);
                EvWriteFile out (to_csv (DataFrame_of_records [data]));
                EvPrint (MsgSaved out)])%list.
Proof.
  unfold run_events.
  exists (pre ++ [ EvPrint (MsgGenerationConfig (run_generation_config self L));
                   EvTokenize (run_batch L); EvToDevice;
                   EvPrint (MsgStart (model_id self) L);
                   EvTime; EvSynchronize;
                   EvGenerate inputs (run_generation_config self L);
                   EvSynchronize; EvTime ]
              ++ map EvMaxMemoryAllocated (seq 0 (cuda_device_count W))
              ++ [EvEmptyCache; EvPrint (MsgFinalResult data); EvNow])%list.
  rewrite <- !app_assoc. reflexivity.
Qed.

(** C10 (as amended): for every non-empty outputs_dir with no regular file
    at it or on the way to it, a run whose measurement succeeded creates
    the output directory, missing parents included, before it writes the
    result file, so that the write does not fail for a missing directory;
    what exists already is left unchanged, and an existing directory leaves
    the whole tree unchanged. *)
Theorem C10_output_directory (W : World) (self : SpeedBenchmarkTransformer)
        (L : Z) (s : State) (inputs pred : tensor) (q : Q) (mid : string) :
  encode_batch (tokenizer self) (run_batch L) = Ok inputs ->
  shape1 inputs = L ->
  shape0 inputs = BATCH_SIZE ->
  generate (model self) inputs (run_generation_config self L) = Ok pred ->
  shape1 pred = GENERATE_LENGTH_PER_EXPERIMENT + L ->
  true_div (inject_Z GENERATE_LENGTH_PER_EXPERIMENT) (time_cost_at W s) = Some q ->
  model_id self = Some mid ->
  can_make_dir W (outputs_dir self) (tree s) ->
  creates_output_dir W self L s mid.
Proof.
  intros Henc Hs1 Hs0 Hgen Hs2 Hdiv Hmid (Hod & Hstart & Hfree).
  pose proof (result_file_name_nosep mid L (datetime_now W)) as Hns.
  pose proof (result_file_name_proper mid L (strftime_mdHMS (datetime_now W))) as Hpr.
  unfold creates_output_dir. cbn zeta.
  set (name := result_file_name mid L (strftime_mdHMS (datetime_now W))) in *.
  destruct (makedirs_total (getcwd W) (outputs_dir self) name (tree s)
                           Hod Hns Hstart Hfree) as [t1 Hmk].
  destruct (makedirs_then_locate _ _ _ _ _ Hod Hns Hpr Hmk)
    as (loc & Hres & Hisdir & K1 & K2 & Hloc).
  exists t1.
  split; [exact Hmk|]. split; [exact Hisdir|].
  split; [exact K1|]. split; [exact K2|].
  split.
  { intros Hex. pose proof (makedirs_existing _ _ name _ Hns Hex) as E.
    rewrite Hmk in E. now injection E. }
  split.
  { rewrite (run_outcome W self L s inputs pred Henc Hs1 Hs0 Hgen Hs2).
    rewrite Hdiv, Hmid. cbn zeta. fold name. rewrite Hmk.
    unfold fs_write. rewrite Hloc.
    destruct (t1 !! (loc ++ [name])%list) as [[|c]|]; [right | left | left];
      reflexivity. }
  intros self' o s' Hrun. apply run_ok_inv in Hrun
    as (inputs' & pred' & mid' & q' & t1' & t2' & _ & _ & _ & _ & _
        & _ & Hmid' & Hout & _ & _ & _ & Hs').
  rewrite Hmid in Hmid'. injection Hmid' as <-.
  fold name in Hout. rewrite <- Hout.
  rewrite Hs'. cbn [trace].
  destruct (run_events_tail W self L inputs'
              (result_record (Some mid) BATCH_SIZE L q'
                             (GiB (Z.max 0 (total_max_memory W)))) o (trace s))
    as [pre Hpre].
  exists pre. eexists. exact Hpre.
Qed.

Lemma C10_witness :
  encode_batch (tokenizer demo_self) (run_batch 1) = Ok [[25105]]
  /\ shape1 [[25105]] = 1
  /\ shape0 [[25105]] = BATCH_SIZE
  /\ generate (model demo_self) [[25105]] (run_generation_config demo_self 1)
     = Ok [25105 :: repeat 0 2048]
  /\ shape1 [25105 :: repeat 0 2048] = GENERATE_LENGTH_PER_EXPERIMENT + 1
  /\ true_div (inject_Z GENERATE_LENGTH_PER_EXPERIMENT) (time_cost_at demo_W demo_s0)
     = Some (inject_Z GENERATE_LENGTH_PER_EXPERIMENT / time_cost_at demo_W demo_s0)%Q
  /\ model_id demo_self = Some "Qwen/Qwen2.5-0.5B-Instruct"
  /\ can_make_dir demo_W (outputs_dir demo_self) (tree demo_s0)
  /\ creates_output_dir demo_W demo_self 1 demo_s0 "Qwen/Qwen2.5-0.5B-Instruct".
Proof.
  assert (H1 : encode_batch (tokenizer demo_self) (run_batch 1) = Ok [[25105]])
    by (vm_compute; reflexivity).
  assert (H2 : shape1 [[25105]] = 1) by reflexivity.
  assert (H3 : shape0 [[25105]] = BATCH_SIZE) by reflexivity.
  assert (H4 : generate (model demo_self) [[25105]] (run_generation_config demo_self 1)
               = Ok [25105 :: repeat 0 2048]) by (vm_compute; reflexivity).
  assert (H5 : shape1 [25105 :: repeat 0 2048] = GENERATE_LENGTH_PER_EXPERIMENT + 1)
    by (vm_compute; reflexivity).
  assert (H6 : true_div (inject_Z GENERATE_LENGTH_PER_EXPERIMENT)
                        (time_cost_at demo_W demo_s0)
               = Some (inject_Z GENERATE_LENGTH_PER_EXPERIMENT
                       / time_cost_at demo_W demo_s0)%Q) by reflexivity.
  assert (H7 : model_id demo_self = Some "Qwen/Qwen2.5-0.5B-Instruct") by reflexivity.
  assert (H8 : can_make_dir demo_W (outputs_dir demo_self) (tree demo_s0)).
  { split; [discriminate|]. split; [vm_compute; reflexivity|].
    intros p content Hin. simpl in Hin.
    destruct Hin as [<-|[<-|[]]]; vm_compute; discriminate. }
  repeat (split; [assumption|]).
  exact (C10_output_directory demo_W demo_self 1 demo_s0 _ _ _ _
                              H1 H2 H3 H4 H5 H6 H7 H8).
Defined.

(** The claim without the side condition fails: with a regular file at the
    configured path the run ends in FileExistsError, no directory is made
    and nothing is written. *)
Lemma C10_counterexample :
  fst (run demo_W (demo_bench "out") 1 demo_blocked) = Raise (OSError EEXIST)
  /\ fs_isdir (getcwd demo_W) "out"
              (tree (snd (run demo_W (demo_bench "out") 1 demo_blocked))) = false
  /\ tree (snd (run demo_W (demo_bench "out") 1 demo_blocked)) !! ["home"; "user"; "out"]
     = Some (File "notes")
  /\ List.filter is_write_event
       (trace (snd (run demo_W (demo_bench "out") 1 demo_blocked))) = [].
Proof.
  split; [vm_compute; reflexivity|].
  split; [vm_compute; reflexivity|].
  split; vm_compute; reflexivity.
Qed.

(** With an empty outputs_dir the directory of the result file is the empty
    path, which [os.makedirs] rejects: the run ends in FileNotFoundError
    although its target, the current directory, exists. *)
Example run_empty_outputs_dir :
  fst (run demo_W (demo_bench "") 1 demo_s0) = Raise (OSError ENOENT)
  /\ is_dir (tree demo_s0) (getcwd demo_W) = true.
Proof. split; vm_compute; reflexivity. Qed.

(** ** The command line *)

Lemma parse_loop_cons (table : list argument) (tok : string) (rest : list string)
      (ns : pydict) (extras : list string) :
  parse_loop table (tok :: rest) ns extras
  = if String.eqb tok "-h" then Raise (SystemExit 0)
    else if (String.prefix "--" tok && negb (String.eqb tok "--"))%bool then
      match resolve table (fst (split_equals tok)) with
      | IsHelp =>
          match snd (split_equals tok) with
          | None => Raise (SystemExit 0)
          | Some _ => Raise (SystemExit 2)
          end
      | IsArgument a =>
          match action a, snd (split_equals tok) with
          | StoreTrue, None =>
              parse_loop table rest (dict_set (dest a) (PBool true) ns) extras
          | StoreTrue, Some _ => Raise (SystemExit 2)
          | Store ty, Some v =>
              match convert ty v with
              | Some x => parse_loop table rest (dict_set (dest a) x ns) extras
              | None => Raise (SystemExit 2)
              end
          | Store ty, None =>
              match rest with
              | v :: rest' =>
                  if (option_like v || String.eqb v "--")%bool then Raise (SystemExit 2)
                  else match convert ty v with
                       | Some x => parse_loop table rest' (dict_set (dest a) x ns) extras
                       | None => Raise (SystemExit 2)
                       end
              | [] => Raise (SystemExit 2)
              end
          end
      | Unknown => parse_loop table rest ns (extras ++ [tok])%list
      end
    else parse_loop table rest ns (extras ++ [tok])%list.
Proof.
  cbn [parse_loop]. destruct (split_equals tok) as [name inline]. reflexivity.
Qed.

Lemma resolve_in (table : list argument) (name : string) (a : argument) :
  resolve table name = IsArgument a -> In a table.
Proof.
  unfold resolve.
  set (known := ("--help", IsHelp)
                  :: map (fun a => (option_string a, IsArgument a)) table).
  assert (K : forall kv, In kv known -> snd kv = IsArgument a -> In a table).
  { intros kv [<-|Hin]; [discriminate|].
    apply in_map_iff in Hin as (a' & <- & Ha'). simpl. now intros [= <-]. }
  destruct (find _ known) as [kv|] eqn:F.
  - apply find_some in F as [Hin _]. exact (K kv Hin).
  - destruct (List.filter _ known) as [|kv [|kv' l]] eqn:E; try discriminate.
    assert (Hin : In kv (List.filter (fun kv => String.prefix name (fst kv)) known))
      by (rewrite E; now left).
    apply filter_In in Hin as [Hin _]. exact (K kv Hin).
Qed.

Lemma dict_set_keys (k : string) (v : pyval) (d : pydict) :
  In k (dict_keys d) -> dict_keys (dict_set k v d) = dict_keys d.
Proof.
  induction d as [|[k' v'] d IH]; [intros []|].
  simpl. destruct (String.eqb_spec k' k) as [->|Hne]; [reflexivity|].
  intros [E|Hin]; [congruence|]. simpl. f_equal. now apply IH.
Qed.

Lemma parse_loop_ok (table : list argument) (n : nat) :
  forall argv ns extras ns',
    (length argv <= n)%nat ->
    dict_keys ns = map dest table ->
    parse_loop table argv ns extras = Ok ns' ->
    extras = [] /\ dict_keys ns' = map dest table /\ only_declared table argv.
Proof.
  induction n as [|n IH]; intros argv ns extras ns' Hlen Hkeys.
  - destruct argv; [|simpl in Hlen; lia]. simpl.
    destruct extras; [|discriminate]. intros [= <-].
    split; [reflexivity|]. split; [exact Hkeys | constructor].
  - destruct argv as [|tok rest].
    { simpl. destruct extras; [|discriminate]. intros [= <-].
      split; [reflexivity|]. split; [exact Hkeys | constructor]. }
    simpl in Hlen. rewrite parse_loop_cons.
    assert (Hset : forall a x, In a table ->
                     dict_keys (dict_set (dest a) x ns) = map dest table).
    { intros a x Ha. rewrite dict_set_keys; [exact Hkeys|].
      rewrite Hkeys. now apply in_map. }
    assert (Hextra : parse_loop table rest ns (extras ++ [tok])%list = Ok ns' -> False).
    { intros H. apply IH in H as (H & _); [|lia|exact Hkeys].
      now destruct extras. }
    destruct (String.eqb tok "-h"); [discriminate|].
    destruct (String.prefix "--" tok && negb (String.eqb tok "--"))%bool;
      [|intros H; exfalso; exact (Hextra H)].
    destruct (resolve table (fst (split_equals tok))) as [|a|] eqn:R;
      [destruct (snd (split_equals tok)); discriminate | |
       intros H; exfalso; exact (Hextra H)].
    pose proof (resolve_in _ _ _ R) as Ha.
    destruct (action a) as [ty|] eqn:Act.
    + destruct (snd (split_equals tok)) as [v|] eqn:Inl.
      * destruct (convert ty v) as [x|]; [|discriminate].
        intros H. apply IH in H as (He & Hk & Hod); [|lia|now apply Hset].
        split; [exact He|]. split; [exact Hk|].
        now apply (od_inline table tok a ty v rest).
      * destruct rest as [|v rest']; [discriminate|].
        destruct (option_like v) eqn:Ol; [discriminate|].
        destruct (String.eqb v "--"); [discriminate|]. cbn [orb].
        destruct (convert ty v) as [x|]; [|discriminate].
        intros H. apply IH in H as (He & Hk & Hod);
          [|simpl in Hlen; lia|now apply Hset].
        split; [exact He|]. split; [exact Hk|].
        now apply (od_value table tok a ty v rest').
    + destruct (snd (split_equals tok)) as [v|] eqn:Inl; [discriminate|].
      intros H. apply IH in H as (He & Hk & Hod); [|lia|now apply Hset].
      split; [exact He|]. split; [exact Hk|].
      now apply (od_flag table tok a rest).
Qed.

Lemma namespace_shape (args : pydict) :
  dict_keys args = five_dests ->
  exists v1 v2 v3 v4 v5,
    args = [ ("model_id", v1); ("context_length", v2); ("gpus", v3);
             ("use_modelscope", v4); ("outputs_dir", v5) ].
Proof.
  unfold dict_keys, five_dests.
  destruct args as [|[k1 v1] [|[k2 v2] [|[k3 v3] [|[k4 v4] [|[k5 v5] [|kv l]]]]]];
    simpl; intros H; try discriminate.
  injection H as -> -> -> -> ->. now exists v1, v2, v3, v4, v5.
Qed.

Lemma parse_args_ok (argv : list string) (args : pydict) :
  parse_args parser_arguments argv = Ok args ->
  dict_keys args = five_dests /\ only_declared parser_arguments argv.
Proof.
  intros H. unfold parse_args in H.
  apply (parse_loop_ok parser_arguments (length argv)) in H as (_ & Hk & Hod);
    [|lia|reflexivity].
  split; [exact Hk | exact Hod].
Qed.

(** ** C7: the command-line surface *)


Example parse_usage_line :
  parse_args parser_arguments
    [ "--model_id"; "Qwen/Qwen2.5-0.5B-Instruct"; "--context_length"; "1";
      "--gpus"; "0"; "--use_modelscope" ]
  = Ok [ ("model_id", PStr "Qwen/Qwen2.5-0.5B-Instruct"); ("context_length", PInt 1);
         ("gpus", PStr "0"); ("use_modelscope", PBool true);
         ("outputs_dir", PStr "outputs/transformer") ].
Proof. vm_compute. reflexivity. Qed.

Example parse_rejects_unknown :
  parse_args parser_arguments ["--model_id"; "m"; "--batch_size"; "4"]
  = Raise (SystemExit 2).
Proof. vm_compute. reflexivity. Qed.

(** ** C4: errors *)

Lemma bind_Raise {A B} (m : M A) (k : A -> M B) (s s' : State) (e : exn) :
  m s = (Raise e, s') -> bind m k s = (Raise e, s').
Proof. unfold bind. now intros ->. Qed.

Lemma bind_assoc {A B C} (m : M A) (f : A -> M B) (g : B -> M C) (s : State) :
  bind (bind m f) g s = bind m (fun a => bind (f a) g) s.
Proof. unfold bind. destruct (m s) as [[a|e] s1]; reflexivity. Qed.

Lemma bind_Ok {A B} (m : M A) (k : A -> M B) (s s' : State) (a : A) :
  m s = (Ok a, s') -> bind m k s = k a s'.
Proof. unfold bind. now intros ->. Qed.

Lemma main_body_eq (W : World) (v1 envs v2 v4 v5 : pyval) (gpus : string) (s : State) :
  as_opt_str envs = Some gpus ->
  main_body W v1 envs v2 v4 v5 s
  = bind (init W (as_opt_str v1) (as_bool v4)
               (match as_opt_str v5 with Some d => d | None => EmptyString end))
         (fun sb => match as_opt_int v2 with
                    | Some L => bind (run W sb L) (fun _ => ret tt)
                    | None => raise TypeError
                    end)
         (before_init gpus (as_opt_str v1) (as_opt_int v2) s).
Proof. intros H. unfold main_body. rewrite H. reflexivity. Qed.

Lemma init_import_error (W : World) (mid : option string) (use_modelscope : bool)
      (od : string) (s : State) :
  module_installed W (required_module use_modelscope) = false ->
  init W mid use_modelscope od s
  = (Raise (ImportError (import_error_message use_modelscope)), seeded s).
Proof.
  intros H. unfold init, import_hub, is_module_installed.
  destruct use_modelscope; simpl in H; rewrite H; reflexivity.
Qed.

(** C4 (as amended): every error surfaces as an uncaught exception that ends
    main, nothing is caught or retried; constructing the benchmark with
    use_modelscope true and modelscope absent, or use_modelscope false and
    huggingface_hub absent, raises ImportError and returns no instance,
    before anything is imported, downloaded or printed; the only state it
    leaves is the random seed, already set to 1024. *)
Theorem C4_errors_surface (W : World) (mid : option string) (use_modelscope : bool)
        (od : string) (s : State) :
  module_installed W (required_module use_modelscope) = false ->
  errors_surface W mid use_modelscope od s.
Proof.
  intros H. unfold errors_surface. cbn zeta.
  split; [now apply init_import_error|].
  split; [reflexivity|]. split; [reflexivity|]. split; [reflexivity|].
  split; [reflexivity|]. split; [reflexivity|].
  split.
  { intros v1 envs v2 v5 gpus s0 He Hm Ho.
    rewrite (main_body_eq W v1 envs v2 (PBool use_modelscope) v5 gpus s0 He).
    rewrite Hm, Ho. apply bind_Raise. now apply init_import_error. }
  split.
  { intros argv s0 x Hp. unfold main. now rewrite Hp. }
  split.
  { intros v1 envs v2 v4 v5 gpus s0 x s1 He Hi.
    rewrite (main_body_eq W v1 envs v2 v4 v5 gpus s0 He).
    now apply bind_Raise. }
  split.
  { intros v1 envs v2 v4 v5 gpus L s0 sb s1 x s2 He HL Hi Hr.
    rewrite (main_body_eq W v1 envs v2 v4 v5 gpus s0 He).
    rewrite (bind_Ok _ _ _ _ _ Hi), HL.
    now apply bind_Raise. }
  split.
  { intros W' h x Hin I1 I2 I3 Hd.
    unfold init, import_hub, is_module_installed.
    destruct h; simpl in Hin; rewrite Hin; cbn [negb].
    - unfold bind at 1. cbn [set_seed].
      repeat first [ rewrite bind_assoc | rewrite bind_emit | rewrite bind_print
                   | rewrite bind_ret | rewrite (bind_lift_Ok _ _ _ _ I1) ].
      unfold bind, lift. now rewrite Hd.
    - unfold bind at 1. cbn [set_seed].
      repeat first [ rewrite bind_assoc | rewrite bind_emit | rewrite bind_print
                   | rewrite bind_ret | rewrite (bind_lift_Ok _ _ _ _ I2)
                   | rewrite (bind_lift_Ok _ _ _ _ I3) ].
      unfold bind, lift. now rewrite Hd. }
  intros self L inputs Henc Hne.
  unfold run.
  cbn [generation_config with_generation_config tokenizer model model_id outputs_dir].
  rewrite bind_print, bind_emit. rewrite (bind_lift_Ok _ _ _ _ Henc).
  apply Z.eqb_neq in Hne. unfold bind at 1. unfold py_assert at 1.
  now rewrite Hne.
Qed.

Lemma C4_witness :
  module_installed (demo_world []) (required_module true) = false
  /\ errors_surface (demo_world []) (Some "Qwen/Qwen2.5-0.5B-Instruct") true
                    "outputs/transformer" demo_s0.
Proof.
  assert (H : module_installed (demo_world []) (required_module true) = false)
    by reflexivity.
  split; [exact H|].
  exact (C4_errors_surface (demo_world []) (Some "Qwen/Qwen2.5-0.5B-Instruct") true
                           "outputs/transformer" demo_s0 H).
Defined.

(** The claim that no state is left fails: before the ImportError the
    constructor has seeded the random number generators. *)
Lemma C4_counterexample :
  fst (init (demo_world []) (Some "Qwen/Qwen2.5-0.5B-Instruct") true
            "outputs/transformer" demo_s0)
  = Raise (ImportError "Please install modelscope: pip install modelscope[framework]")
  /\ rng_seed demo_s0 = None
  /\ rng_seed (snd (init (demo_world []) (Some "Qwen/Qwen2.5-0.5B-Instruct") true
                         "outputs/transformer" demo_s0)) = Some 1024
  /\ snd (init (demo_world []) (Some "Qwen/Qwen2.5-0.5B-Instruct") true
               "outputs/transformer" demo_s0) <> demo_s0.
Proof.
  split; [vm_compute; reflexivity|].
  split; [reflexivity|].
  split; [vm_compute; reflexivity|].
  intros E. apply (f_equal rng_seed) in E. vm_compute in E. discriminate.
Qed.

(** A failed download and a mismatching tokenizer, in the demo world. *)
Example download_failure_surfaces :
  fst (init demo_W None true "outputs/transformer" demo_s0)
  = Raise (FrameworkError "snapshot_download").
Proof. vm_compute. reflexivity. Qed.

Example negative_context_length_asserts :
  fst (run demo_W demo_self (-1) demo_s0) = Raise AssertionError.
Proof. vm_compute. reflexivity. Qed.

(** ** What the constructor and [run] leave alone *)



Lemma only_logs_log (e : event) (s : State) : only_logs s (log e s).
Proof. repeat split. now exists [e]. Qed.

Lemma keeps_world_refl (s : State) : keeps_world s s.
Proof.
  split; [reflexivity|]. split; [reflexivity|]. split; [lia|].
  split; [exists []; now rewrite app_nil_r|]. split; [auto|]. eauto.
Qed.

Lemma keeps_world_trans (s1 s2 s3 : State) :
  keeps_world s1 s2 -> keeps_world s2 s3 -> keeps_world s1 s3.
Proof.
  intros (A1 & A2 & A3 & (n1 & A4) & A5 & A6) (B1 & B2 & B3 & (n2 & B4) & B5 & B6).
  split; [congruence|]. split; [congruence|]. split; [lia|].
  split; [exists (n1 ++ n2)%list; now rewrite B4, A4, app_assoc|].
  split; [auto|].
  intros p c H. destruct (A6 _ _ H) as [c' H']. eauto.
Qed.

Lemma only_logs_keeps_world (s s' : State) : only_logs s s' -> keeps_world s s'.
Proof.
  intros (A1 & A2 & A3 & A4 & A5).
  split; [exact A1|]. split; [exact A2|]. split; [lia|]. split; [exact A5|].
  rewrite A3. split; [auto | eauto].
Qed.

Section Preserves.

Variable R : State -> State -> Prop.
Hypothesis R_refl : forall s, R s s.
Hypothesis R_trans : forall s1 s2 s3, R s1 s2 -> R s2 s3 -> R s1 s3.

Lemma preserves_ret {A} (a : A) : preserves R (ret a).
Proof. intros s o s' [= _ <-]. apply R_refl. Qed.

Lemma preserves_raise {A} (e : exn) : preserves R (@raise A e).
Proof. intros s o s' [= _ <-]. apply R_refl. Qed.

Lemma preserves_lift {A} (x : outcome A) : preserves R (lift x).
Proof. intros s o s' [= _ <-]. apply R_refl. Qed.

Lemma preserves_assert (b : bool) : preserves R (py_assert b).
Proof. destruct b; [apply preserves_ret | apply preserves_raise]. Qed.

Lemma preserves_bind {A B} (m : M A) (k : A -> M B) :
  preserves R m -> (forall a, preserves R (k a)) -> preserves R (bind m k).
Proof.
  intros Hm Hk s o s'. unfold bind.
  destruct (m s) as [[a|e] s1] eqn:E.
  - intros H. exact (R_trans _ _ _ (Hm _ _ _ E) (Hk a _ _ _ H)).
  - intros [= _ <-]. exact (Hm _ _ _ E).
Qed.

End Preserves.

Lemma preserves_emit_logs (e : event) : preserves only_logs (emit e).
Proof. intros s o s' [= _ <-]. apply only_logs_log. Qed.


Lemma only_dirs_added_refl (s : State) : only_dirs_added s s.
Proof. split; [apply keeps_world_refl | auto]. Qed.

Lemma only_dirs_added_trans (s1 s2 s3 : State) :
  only_dirs_added s1 s2 -> only_dirs_added s2 s3 -> only_dirs_added s1 s3.
Proof.
  intros [A1 A2] [B1 B2]. split; [exact (keeps_world_trans _ _ _ A1 B1) | auto].
Qed.

Lemma only_logs_only_dirs_added (s s' : State) :
  only_logs s s' -> only_dirs_added s s'.
Proof.
  intros H. split; [now apply only_logs_keeps_world|].
  destruct H as (_ & _ & -> & _). auto.
Qed.

Lemma only_dirs_added_keeps_world (s s' : State) :
  only_dirs_added s s' -> keeps_world s s'.
Proof. now intros [H _]. Qed.

Lemma preserves_weaken {A} (R R' : State -> State -> Prop) (m : M A) :
  (forall s s', R s s' -> R' s s') -> preserves R m -> preserves R' m.
Proof. intros HR Hm s o s' H. exact (HR _ _ (Hm _ _ _ H)). Qed.

Lemma preserves_snd {A} (R : State -> State -> Prop) (m : M A) (s : State) :
  preserves R m -> R s (snd (m s)).
Proof. intros Hm. destruct (m s) as [o s'] eqn:E. exact (Hm _ _ _ E). Qed.

Lemma fails_bind {A B} (R : State -> State -> Prop) (m : M A) (k : A -> M B) :
  (forall s1 s2 s3, R s1 s2 -> R s2 s3 -> R s1 s3) ->
  preserves R m -> (forall a, fails_within R (k a)) -> fails_within R (bind m k).
Proof.
  intros R_trans Hm Hk s e s'. unfold bind.
  destruct (m s) as [[a|e1] s1] eqn:E.
  - intros H. exact (R_trans _ _ _ (Hm _ _ _ E) (Hk a _ _ _ H)).
  - intros [= _ <-]. exact (Hm _ _ _ E).
Qed.

Lemma preserves_emit (e : event) : preserves only_dirs_added (emit e).
Proof.
  apply (preserves_weaken only_logs); [exact only_logs_only_dirs_added|].
  apply preserves_emit_logs.
Qed.

Lemma preserves_py_time (W : World) : preserves only_dirs_added (py_time W).
Proof.
  intros s o s' [= _ <-]. destruct s as [sd en tr ck tc].
  unfold only_dirs_added, keeps_world, log, tick.
  cbn [rng_seed environ tree clock_reads trace].
  split; [|auto].
  split; [reflexivity|]. split; [reflexivity|]. split; [lia|].
  split; [now exists [EvTime]|]. split; [auto | eauto].
Qed.

Lemma preserves_sum_max_memory (W : World) (n start : nat) (m : Z) :
  preserves only_dirs_added (sum_max_memory W start n m).
Proof.
  revert start m. induction n as [|n IH]; intros start m; cbn [sum_max_memory].
  - apply preserves_ret. exact only_dirs_added_refl.
  - apply (preserves_bind _ only_dirs_added_trans); [apply preserves_emit|].
    intros _. apply IH.
Qed.

Lemma fs_makedirs_adds_dirs (cwd : location) (path : string)
      (t t' : gmap location node) :
  fs_makedirs cwd path t = Ok t' ->
  (forall p x, t !! p = Some x -> t' !! p = Some x)
  /\ (forall p x, t' !! p = Some x -> t !! p = Some x \/ (t !! p = None /\ x = Dir)).
Proof.
  unfold fs_makedirs.
  destruct (String.eqb path ""); [discriminate|].
  destruct (negb _); [discriminate|].
  destruct (walk true _ _ t) as [[loc t1]|e] eqn:E; [|discriminate].
  intros [= <-]. destruct (walk_true_spec _ _ _ _ _ E) as (K1 & K2 & _).
  now split.
Qed.

Lemma preserves_makedirs (W : World) (path : string) :
  preserves only_dirs_added (makedirs W path).
Proof.
  intros s o s'. unfold makedirs.
  destruct (fs_makedirs _ _ _) as [t1|e] eqn:E.
  - intros [= _ <-]. destruct (fs_makedirs_adds_dirs _ _ _ _ E) as [K1 K2].
    destruct s as [sd en tr ck tc].
    unfold only_dirs_added, keeps_world, log, with_tree.
    cbn [rng_seed environ tree clock_reads trace] in *.
    split.
    + split; [reflexivity|]. split; [reflexivity|]. split; [lia|].
      split; [now exists [EvMakedirs path]|]. split; [auto | eauto].
    + intros p c H. destruct (K2 _ _ H) as [H'|[_ H']]; [exact H'|discriminate].
  - intros [= _ <-]. apply only_dirs_added_refl.
Qed.

Lemma fs_write_inserts (cwd : location) (path content : string)
      (t t' : gmap location node) :
  fs_write cwd path content t = Ok t' ->
  exists p, t' = <[p := File content]> t /\ t !! p <> Some Dir.
Proof.
  unfold fs_write, fs_locate.
  destruct (split_last _) as [dirs name].
  destruct (negb _); [discriminate|].
  destruct (walk false dirs _ t) as [[d t1]|e]; [|discriminate].
  destruct (_ || _)%bool; [discriminate|].
  destruct (t !! (d ++ [name])%list) as [[|c]|] eqn:E; [discriminate| |];
    intros [= <-]; exists (d ++ [name])%list; split; congruence.
Qed.

Lemma preserves_write_file (W : World) (path content : string) :
  preserves keeps_world (write_file W path content).
Proof.
  intros s o s'. unfold write_file.
  destruct (fs_write _ _ _ _) as [t1|e] eqn:E.
  - intros [= _ <-]. destruct (fs_write_inserts _ _ _ _ _ E) as (p & -> & Hp).
    destruct s as [sd en tr ck tc].
    unfold keeps_world, log, with_tree.
    cbn [rng_seed environ tree clock_reads trace] in *.
    split; [reflexivity|]. split; [reflexivity|]. split; [lia|].
    split; [now exists [EvWriteFile path content]|]. split.
    + intros q Hq. rewrite lookup_insert_ne by congruence. exact Hq.
    + intros q c Hq. destruct (decide (p = q)) as [->|Hne].
      * exists content. apply lookup_insert_eq.
      * exists c. now rewrite lookup_insert_ne.
  - intros [= _ <-]. apply keeps_world_refl.
Qed.

(** Steps of a computation that keeps [R]: binds are split, and [prim]
    closes the primitive steps. *)
Ltac preserves_steps refl trans prim :=
  repeat first
    [ apply (preserves_bind _ trans); [|intros ?]
    | apply (preserves_ret _ refl)
    | apply (preserves_raise _ refl)
    | apply (preserves_lift _ refl)
    | apply (preserves_assert _ refl)
    | prim
    | match goal with
      | |- preserves _ (match ?x with _ => _ end) => destruct x
      end ].



Lemma run_preserves_dirs (W : World) (self : SpeedBenchmarkTransformer) (L : Z) :
  preserves keeps_world (run W self L).
Proof.
  unfold run, save_result, print.
  preserves_steps keeps_world_refl keeps_world_trans
    ltac:(first
            [ apply preserves_write_file
            | apply (preserves_weaken only_dirs_added);
              [ exact only_dirs_added_keeps_world
              | first [ apply preserves_emit | apply preserves_py_time
                      | apply preserves_sum_max_memory | apply preserves_makedirs ] ] ]).
Qed.

Lemma run_fails_within (W : World) (self : SpeedBenchmarkTransformer) (L : Z) :
  fails_within only_dirs_added (run W self L).
Proof.
  unfold run, print.
  repeat (apply (fails_bind _ _ _ only_dirs_added_trans);
          [ solve [ preserves_steps only_dirs_added_refl only_dirs_added_trans
                      ltac:(first [ apply preserves_emit | apply preserves_py_time
                                  | apply preserves_sum_max_memory
                                  | apply preserves_makedirs ]) ]
          | intros ? ]).
  intros s e s'. unfold save_result, bind, write_file, print, emit, ret.
  destruct (fs_write _ _ _ _); [discriminate|].
  intros [= _ <-]. apply only_dirs_added_refl.
Qed.

(** ** The constructor *)




(** ** What the constructor and a run leave alone *)


(** X3 (run, lines 71-130).  However a run ends, the seed and the
    environment are as before, the trace and the clock have only grown, every
    directory is still a directory and every regular file still a regular
    file. *)
Theorem run_keeps_world (W : World) (self : SpeedBenchmarkTransformer) (L : Z)
        (s : State) :
  keeps_world s (snd (run W self L s)).
Proof. apply preserves_snd, run_preserves_dirs. Qed.

(** X4 (run, lines 71-130).  A run that raises has written nothing: the
    regular files and their contents are exactly those of the start. *)
Theorem failed_run_keeps_files (W : World) (self : SpeedBenchmarkTransformer)
        (L : Z) (s : State) (e : exn) :
  fst (run W self L s) = Raise e ->
  forall p c, tree (snd (run W self L s)) !! p = Some (File c)
              <-> tree s !! p = Some (File c).
Proof.
  destruct (run W self L s) as [o s'] eqn:E. cbn [fst snd]. intros ->.
  destruct (run_fails_within W self L _ _ _ E) as [K1 K2].
  intros p c. split; [apply K2|].
  intros H. destruct K1 as (_ & _ & _ & _ & _ & K). destruct (K _ _ H) as [c' H'].
  pose proof (K2 _ _ H') as H2. congruence.
Qed.

Lemma failed_run_keeps_files_witness :
  fst (run demo_W (demo_bench "out") 1 demo_blocked) = Raise (OSError EEXIST)
  /\ forall p c,
      tree (snd (run demo_W (demo_bench "out") 1 demo_blocked)) !! p = Some (File c)
      <-> tree demo_blocked !! p = Some (File c).
Proof.
  assert (H : fst (run demo_W (demo_bench "out") 1 demo_blocked)
              = Raise (OSError EEXIST)) by (vm_compute; reflexivity).
  split; [exact H|].
  exact (failed_run_keeps_files demo_W (demo_bench "out") 1 demo_blocked _ H).
Defined.

(** ** The order in which a run fails *)



(** X6 (run, lines 123-127).  With an empty [outputs_dir] the directory of
    the result file is the empty path, which [os.makedirs] rejects: every run
    that gets as far as the dump ends in FileNotFoundError, whatever the file
    tree holds. *)
Theorem empty_outputs_dir_fails (W : World) (self : SpeedBenchmarkTransformer)
        (L : Z) (s : State) (inputs pred : tensor) (q : Q) (mid : string) :
  measures self L inputs pred ->
  true_div (inject_Z GENERATE_LENGTH_PER_EXPERIMENT) (time_cost_at W s) = Some q ->
  model_id self = Some mid ->
  outputs_dir self = "" ->
  fst (run W self L s) = Raise (OSError ENOENT).
Proof.
  intros (H1 & H2 & H3 & H4 & H5) Hq Hmid Hod.
  rewrite (run_outcome W self L s inputs pred H1 H2 H3 H4 H5), Hq, Hmid, Hod.
  cbv zeta. rewrite dirname_join_empty by apply result_file_name_nosep.
  reflexivity.
Qed.

Lemma empty_outputs_dir_fails_witness :
  measures (demo_bench "") 1 [[25105]] [25105 :: repeat 0 2048]
  /\ true_div (inject_Z GENERATE_LENGTH_PER_EXPERIMENT) (time_cost_at demo_W demo_s0)
     = Some (inject_Z GENERATE_LENGTH_PER_EXPERIMENT / time_cost_at demo_W demo_s0)%Q
  /\ model_id (demo_bench "") = Some "Qwen/Qwen2.5-0.5B-Instruct"
  /\ outputs_dir (demo_bench "") = ""
  /\ fst (run demo_W (demo_bench "") 1 demo_s0) = Raise (OSError ENOENT).
Proof.
  assert (H : measures (demo_bench "") 1 [[25105]] [25105 :: repeat 0 2048])
    by (repeat split; vm_compute; reflexivity).
  split; [exact H|]. split; [reflexivity|]. split; [reflexivity|].
  split; [reflexivity|].
  exact (empty_outputs_dir_fails demo_W (demo_bench "") 1 demo_s0 _ _ _ _ H
           eq_refl eq_refl eq_refl).
Defined.

(** ** An existing result file *)

Lemma walk_false_loc (comps : list string) (loc l : location)
      (t : gmap location node) :
  option_map fst (ok_part (walk false comps loc t)) = Some l ->
  walk false comps loc t = Ok (l, t).
Proof.
  destruct (walk false comps loc t) as [[l' t']|e] eqn:E; [|discriminate].
  cbn. intros [= ->]. now rewrite (walk_false_same _ _ _ _ _ E).
Qed.

(** X7 (run and save_result, lines 30, 123-135).  [OVERWRITE_RESULT] is
    never consulted: when the output directory exists and already holds a
    regular file under the name of the result file, the run succeeds all the
    same and the file holds the new table afterwards. *)
Theorem run_overwrites (W : World) (self : SpeedBenchmarkTransformer) (L : Z)
        (s : State) (inputs pred : tensor) (q : Q) (mid : string)
        (loc : location) (old : string) :
  measures self L inputs pred ->
  true_div (inject_Z GENERATE_LENGTH_PER_EXPERIMENT) (time_cost_at W s) = Some q ->
  model_id self = Some mid ->
  fs_isdir (getcwd W) (outputs_dir self) (tree s) = true ->
  walk false (str_split sep (outputs_dir self))
       (start_of (getcwd W) (outputs_dir self)) (tree s) = Ok (loc, tree s) ->
  tree s !! (loc ++ [result_file_name mid L (strftime_mdHMS (datetime_now W))])%list
  = Some (File old) ->
  replaces_file W self L s mid q loc.
Proof.
  intros (H1 & H2 & H3 & H4 & H5) Hq Hmid Hdir Hwalk Hold.
  unfold replaces_file.
  set (name := result_file_name mid L (strftime_mdHMS (datetime_now W))) in *.
  set (data := result_record (Some mid) BATCH_SIZE L q
                             (GiB (Z.max 0 (total_max_memory W)))).
  assert (Hnosep : str_contains sep name = false) by apply result_file_name_nosep.
  assert (Hproper : (String.eqb name "" || String.eqb name "."
                     || String.eqb name "..")%bool = false)
    by apply result_file_name_proper.
  assert (Hod : outputs_dir self <> "").
  { unfold fs_isdir in Hdir. intros E. rewrite E in Hdir. discriminate. }
  pose proof (makedirs_existing (getcwd W) _ name (tree s) Hnosep Hdir) as Hmk.
  destruct (makedirs_then_locate _ _ _ _ _ Hod Hnosep Hproper Hmk)
    as (loc' & Hwalk' & _ & _ & _ & Hloc).
  rewrite Hwalk in Hwalk'. injection Hwalk' as <-.
  rewrite Hold in Hloc.
  assert (Hwrite : forall content,
             fs_write (getcwd W) (path_join (outputs_dir self) name) content (tree s)
             = Ok (<[(loc ++ [name])%list := File content]> (tree s))).
  { intros content. unfold fs_write. now rewrite Hloc. }
  pose proof (run_outcome W self L s inputs pred H1 H2 H3 H4 H5) as Hfst.
  rewrite Hq, Hmid in Hfst. cbv zeta in Hfst. fold name in Hfst.
  rewrite Hmk, Hwrite in Hfst.
  destruct (run W self L s) as [o s'] eqn:E. cbn [fst] in Hfst. subst o.
  exists s'. split; [reflexivity|].
  destruct (run_ok_inv _ _ _ _ _ _ _ E)
    as (inputs' & pred' & mid' & q' & t1 & t2 & _ & _ & _ & _ & _ & Hq' & Hmid'
        & _ & Hmk' & Hw' & _ & ->).
  rewrite Hmid in Hmid'. injection Hmid' as <-.
  rewrite Hq in Hq'. injection Hq' as <-.
  fold name in Hmk', Hw'. rewrite Hmk in Hmk'. injection Hmk' as <-.
  rewrite Hwrite in Hw'. injection Hw' as <-.
  cbn [tree]. apply lookup_insert_eq.
Qed.

Lemma run_overwrites_witness :
  measures demo_self 1 [[25105]] [25105 :: repeat 0 2048]
  /\ fs_isdir (getcwd demo_W) (outputs_dir demo_self) demo_tree_with_result = true
  /\ demo_tree_with_result
       !! ["home"; "user"; "outputs"; "transformer";
           "Qwen__Qwen2.5-0.5B-Instruct_context_length-1_1103090507.csv"]
     = Some (File "old")
  /\ replaces_file demo_W demo_self 1 (demo_state demo_tree_with_result)
                   "Qwen/Qwen2.5-0.5B-Instruct"
                   (inject_Z GENERATE_LENGTH_PER_EXPERIMENT
                    / time_cost_at demo_W (demo_state demo_tree_with_result))%Q
                   ["home"; "user"; "outputs"; "transformer"].
Proof.
  assert (H : measures demo_self 1 [[25105]] [25105 :: repeat 0 2048])
    by (repeat split; vm_compute; reflexivity).
  assert (Hd : fs_isdir (getcwd demo_W) (outputs_dir demo_self) demo_tree_with_result
               = true) by (vm_compute; reflexivity).
  assert (Ho : demo_tree_with_result
                 !! ["home"; "user"; "outputs"; "transformer";
                     "Qwen__Qwen2.5-0.5B-Instruct_context_length-1_1103090507.csv"]
               = Some (File "old")) by (vm_compute; reflexivity).
  split; [exact H|]. split; [exact Hd|]. split; [exact Ho|].
  apply (run_overwrites demo_W demo_self 1 (demo_state demo_tree_with_result)
           [[25105]] [25105 :: repeat 0 2048] _ "Qwen/Qwen2.5-0.5B-Instruct"
           ["home"; "user"; "outputs"; "transformer"] "old" H).
  - reflexivity.
  - reflexivity.
  - exact Hd.
  - apply walk_false_loc. vm_compute. reflexivity.
  - exact Ho.
Defined.

(** ** Where the result file goes *)

Lemma all_char_snoc (c : ascii) (s : string) :
  all_char c (s ++ String c "") = all_char c s.
Proof.
  induction s as [|a s IH]; cbn [String.append all_char].
  - now rewrite ascii_eqb_refl.
  - now rewrite IH.
Qed.

Lemma rstrip_char_snoc (c : ascii) (s : string) :
  rstrip_char c (s ++ String c "") = rstrip_char c s.
Proof.
  induction s as [|a s IH]; cbn [String.append rstrip_char].
  - now rewrite ascii_eqb_refl.
  - now rewrite IH.
Qed.

Lemma all_char_endswith (c : ascii) (s : string) :
  s <> "" -> all_char c s = true -> endswith_char c s = true.
Proof.
  induction s as [|a s IH]; [congruence|].
  intros _ H. cbn [all_char] in H. apply andb_true_iff in H as [Ha Hs].
  destruct s as [|b s]; [exact Ha|].
  change (endswith_char c (String b s) = true). now apply IH.
Qed.

Lemma dirname_join (od name : string) :
  od <> "" ->
  str_contains sep name = false ->
  path_dirname (path_join od name)
  = if all_char sep od then od else rstrip_char sep od.
Proof.
  intros Hod Hname. unfold path_join.
  rewrite (startswith_nosep _ _ Hname).
  assert (E : String.eqb od "" = false) by now apply String.eqb_neq.
  rewrite E. cbn [orb].
  destruct (endswith_char sep od) eqn:Hend.
  - destruct (endswith_char_split _ _ Hend) as [h ->].
    rewrite str_app_assoc. cbn [String.append].
    unfold path_dirname. rewrite (upto_last_app _ _ _ Hname).
    rewrite E. cbn [negb andb]. now destruct (all_char sep (h ++ String sep "")).
  - unfold path_dirname. rewrite (upto_last_app _ _ _ Hname).
    assert (Hall : all_char sep od = false).
    { destruct (all_char sep od) eqn:A; [|reflexivity].
      rewrite (all_char_endswith _ _ Hod A) in Hend. discriminate. }
    assert (E2 : String.eqb (od ++ String sep "") "" = false)
      by (destruct od; [congruence | reflexivity]).
    rewrite all_char_snoc, Hall, rstrip_char_snoc, E2. reflexivity.
Qed.

(** X8 (run, lines 123-126).  The directory [run] makes for the result file
    is [outputs_dir] without its trailing slashes, or [outputs_dir] itself
    when it consists of slashes only; the model id, the context length and
    the time play no part in it. *)
Theorem out_dir_is_outputs_dir (od mid : string) (L : Z) (now : datetime) :
  od <> "" ->
  path_dirname (path_join od (result_file_name mid L (strftime_mdHMS now)))
  = if all_char sep od then od else rstrip_char sep od.
Proof. intros Hod. apply (dirname_join _ _ Hod), result_file_name_nosep. Qed.

Lemma out_dir_is_outputs_dir_witness :
  "outputs//transformer//" <> ""
  /\ path_dirname
       (path_join "outputs//transformer//"
                  (result_file_name "Qwen/Qwen2.5-0.5B-Instruct" 1
                                    (strftime_mdHMS (datetime_now demo_W))))
     = "outputs//transformer".
Proof.
  assert (H : "outputs//transformer//" <> "") by discriminate.
  split; [exact H|].
  exact (out_dir_is_outputs_dir "outputs//transformer//" "Qwen/Qwen2.5-0.5B-Instruct"
                                1 (datetime_now demo_W) H).
Defined.

Lemma str_replace_app (c : ascii) (by_ a b : string) :
  str_replace c by_ (a ++ b) = str_replace c by_ a ++ str_replace c by_ b.
Proof.
  induction a as [|x a IH]; cbn [String.append str_replace]; [reflexivity|].
  rewrite IH. destruct (ascii_eqb x c); [now rewrite str_app_assoc | reflexivity].
Qed.

(** X9 (run, line 124).  Replacing ['/'] by ['__'] does not tell model ids
    apart that differ only in a ['/'] against a ['__']: they get the same
    result file name for the same context length and time. *)
Theorem file_name_collision (x y : string) (L : Z) (ts : string) :
  result_file_name (x ++ "/" ++ y) L ts = result_file_name (x ++ "__" ++ y) L ts.
Proof.
  unfold result_file_name. f_equal.
  rewrite !str_replace_app. reflexivity.
Qed.

(** ** Using the object again *)

(** X10 (run, lines 74-75).  [run] sets the two generation lengths anew each
    time, so the object a run returns behaves in a later run exactly as the
    object the run was given: nothing of the earlier context length is
    left. *)
Theorem run_again (W : World) (self self1 : SpeedBenchmarkTransformer)
        (L1 L2 : Z) (s s1 : State) (out1 : string) :
  run W self L1 s = (Ok (self1, out1), s1) ->
  forall s2, run W self1 L2 s2 = run W self L2 s2.
Proof.
  intros H s2.
  destruct (run_ok_inv _ _ _ _ _ _ _ H)
    as (inputs & pred & mid & q & t1 & t2 & _ & _ & _ & _ & _ & _ & _ & _ & _ & _ & -> & _).
  reflexivity.
Qed.

Lemma run_again_witness :
  run demo_W demo_self 1 demo_s0 = (Ok (demo_self', demo_out), demo_s1)
  /\ forall s2, run demo_W demo_self' 6144 s2 = run demo_W demo_self 6144 s2.
Proof.
  assert (H : run demo_W demo_self 1 demo_s0 = (Ok (demo_self', demo_out), demo_s1))
    by (eval_run demo_s1).
  split; [exact H|].
  exact (run_again demo_W demo_self demo_self' 1 6144 demo_s0 demo_s1 demo_out H).
Defined.

(** ** The memory figure and the timed section *)

Lemma round_half_even_nonneg (n : Z) (d : positive) :
  0 <= n -> 0 <= round_half_even n d.
Proof.
  intros Hn. unfold round_half_even.
  assert (H : 0 <= n / Z.pos d) by (apply Z.div_pos; lia).
  destruct (2 * (n mod Z.pos d) <? Z.pos d); [exact H|].
  destruct (Z.pos d <? 2 * (n mod Z.pos d)); [lia|].
  destruct (Z.even (n / Z.pos d)); lia.
Qed.

Lemma GiB_num (z : Z) : Qnum (GiB z) = z.
Proof. unfold GiB. cbn. lia. Qed.

(** X11 (run, lines 94-98, 104, 114).  Whatever the per-device counters
    are, the memory figure of the record is not negative, because the sum is
    clamped by [max(0, m)]; it is 0.0 when the sum is not positive, so also
    when there is no CUDA device at all. *)
Theorem memory_never_negative (W : World) (self self' : SpeedBenchmarkTransformer)
        (L : Z) (s s' : State) (out : string) :
  run W self L s = (Ok (self', out), s') ->
  memory_clamped W s'.
Proof.
  intros H.
  destruct (run_ok_inv _ _ _ _ _ _ _ H)
    as (inputs & pred & mid & q & t1 & t2 & _ & _ & _ & _ & _ & _ & _ & _ & _ & _ & _ & ->).
  set (data := result_record (Some mid) BATCH_SIZE L q
                             (GiB (Z.max 0 (total_max_memory W)))).
  exists data, (round4 (GiB (Z.max 0 (total_max_memory W)))).
  split; [cbn [trace]; apply in_run_events_final|].
  split; [reflexivity|].
  assert (Hzero : total_max_memory W <= 0 ->
                  units4 (round4 (GiB (Z.max 0 (total_max_memory W)))) = 0).
  { intros Hle. replace (Z.max 0 (total_max_memory W)) with 0 by lia. reflexivity. }
  split; [|split; [exact Hzero|]].
  - unfold round4. cbn [units4]. apply round_half_even_nonneg.
    rewrite GiB_num. lia.
  - intros Hn. apply Hzero. unfold total_max_memory. rewrite Hn. cbn. lia.
Qed.

Lemma memory_never_negative_witness :
  run demo_W demo_self 1 demo_s0 = (Ok (demo_self', demo_out), demo_s1)
  /\ memory_clamped demo_W demo_s1.
Proof.
  assert (H : run demo_W demo_self 1 demo_s0 = (Ok (demo_self', demo_out), demo_s1))
    by (eval_run demo_s1).
  split; [exact H|].
  exact (memory_never_negative demo_W demo_self demo_self' 1 demo_s0 demo_s1 demo_out H).
Defined.

(** X12 (run, lines 79-99).  A run that succeeds reads the clock exactly
    twice; between the two readings lie the first synchronization, the
    generation with the configuration the run installed, and the second
    synchronization, and nothing else: the tokenization comes before the
    first reading and every memory query after the second. *)
Theorem run_times_generation_only (W : World) (self self' : SpeedBenchmarkTransformer)
        (L : Z) (s s' : State) (out : string) :
  run W self L s = (Ok (self', out), s') ->
  times_generation_only W self L s s'.
Proof.
  intros H.
  destruct (run_ok_inv _ _ _ _ _ _ _ H)
    as (inputs & pred & mid & q & t1 & t2 & _ & _ & _ & _ & _ & _ & _ & _ & _ & _ & _ & ->).
  set (data := result_record (Some mid) BATCH_SIZE L q
                             (GiB (Z.max 0 (total_max_memory W)))).
  exists inputs,
    [ EvPrint (MsgGenerationConfig (run_generation_config self L));
      EvTokenize (run_batch L); EvToDevice; EvPrint (MsgStart (model_id self) L) ],
    (map EvMaxMemoryAllocated (seq 0 (cuda_device_count W))
     ++ [ EvEmptyCache; EvPrint (MsgFinalResult data); EvNow;
          EvMakedirs (path_dirname out);
          EvWriteFile out (to_csv (DataFrame_of_records [data]));
          EvPrint (MsgSaved out) ])%list.
  cbn [trace clock_reads].
  split; [reflexivity|].
  split; [intros [E|[E|[E|[E|[]]]]]; discriminate|].
  split.
  { intros Hin. apply in_app_or in Hin as [Hin|Hin].
    - apply in_map_iff in Hin as (i & E & _). discriminate.
    - destruct Hin as [E|[E|[E|[E|[E|[E|[]]]]]]]; discriminate. }
  split; [right; left; reflexivity|].
  split; [|reflexivity].
  intros i Hi. apply in_or_app. left. apply in_map, in_seq. lia.
Qed.

Lemma run_times_generation_only_witness :
  run demo_W demo_self 1 demo_s0 = (Ok (demo_self', demo_out), demo_s1)
  /\ times_generation_only demo_W demo_self 1 demo_s0 demo_s1.
Proof.
  assert (H : run demo_W demo_self 1 demo_s0 = (Ok (demo_self', demo_out), demo_s1))
    by (eval_run demo_s1).
  split; [exact H|].
  exact (run_times_generation_only demo_W demo_self demo_self' 1 demo_s0 demo_s1
                                   demo_out H).
Defined.

(** ** What the parser stores *)

Lemma parse_loop_inv (table : list argument) (P : pydict -> Prop) (n : nat) :
  forall argv ns extras ns',
    (length argv <= n)%nat ->
    (forall tok a x ns0,
        In tok argv -> resolve table (fst (split_equals tok)) = IsArgument a ->
        stored a x -> P ns0 -> P (dict_set (dest a) x ns0)) ->
    P ns ->
    parse_loop table argv ns extras = Ok ns' -> P ns'.
Proof.
  induction n as [|n IH]; intros argv ns extras ns' Hlen Hstep Hns.
  - destruct argv; [|simpl in Hlen; lia]. simpl.
    destruct extras; [|discriminate]. now intros [= <-].
  - destruct argv as [|tok rest].
    { simpl. destruct extras; [|discriminate]. now intros [= <-]. }
    simpl in Hlen. rewrite parse_loop_cons.
    assert (Hrest : forall tok' a x ns0,
               In tok' rest -> resolve table (fst (split_equals tok')) = IsArgument a ->
               stored a x -> P ns0 -> P (dict_set (dest a) x ns0))
      by (intros tok' a x ns0 Hin; apply Hstep; now right).
    destruct (String.eqb tok "-h"); [discriminate|].
    destruct (String.prefix "--" tok && negb (String.eqb tok "--"))%bool;
      [|apply IH; [lia | exact Hrest | exact Hns]].
    destruct (resolve table (fst (split_equals tok))) as [|a|] eqn:R;
      [destruct (snd (split_equals tok)); discriminate | |
       apply IH; [lia | exact Hrest | exact Hns]].
    assert (Hset : forall x, stored a x -> P (dict_set (dest a) x ns))
      by (intros x Hx; apply (Hstep tok a x ns); [now left | exact R | exact Hx | exact Hns]).
    unfold stored in Hset.
    destruct (action a) as [ty|] eqn:Act.
    + destruct (snd (split_equals tok)) as [v|] eqn:Inl.
      * destruct (convert ty v) as [x|] eqn:C; [|discriminate].
        apply IH; [lia | exact Hrest | apply Hset; now exists v].
      * destruct rest as [|v rest']; [discriminate|].
        destruct (option_like v) eqn:Ol; [discriminate|].
        destruct (String.eqb v "--"); [discriminate|]. cbn [orb].
        destruct (convert ty v) as [x|] eqn:C; [|discriminate].
        apply IH; [simpl in Hlen; lia | | apply Hset; now exists v].
        intros tok' a' x' ns0 Hin. apply Hrest. now right.
    + destruct (snd (split_equals tok)) as [v|] eqn:Inl; [discriminate|].
      apply IH; [lia | exact Hrest | now apply Hset].
Qed.

Lemma typed_namespace_set (a : argument) (x : pyval) (ns : pydict) :
  In a parser_arguments -> stored a x -> typed_namespace ns ->
  typed_namespace (dict_set (dest a) x ns).
Proof.
  intros Ha Hx (mid & L & gpus & um & od & ->).
  unfold stored in Hx.
  destruct Ha as [<-|[<-|[<-|[<-|[<-|[]]]]]]; cbn in Hx.
  - destruct Hx as [v [= <-]]. now exists (Some v), L, gpus, um, od.
  - destruct Hx as [v Hv]. destruct (Z_of_str v) as [z|]; [|discriminate].
    injection Hv as <-. now exists mid, (Some z), gpus, um, od.
  - destruct Hx as [v [= <-]]. now exists mid, L, (Some v), um, od.
  - subst x. now exists mid, L, gpus, true, od.
  - destruct Hx as [v [= <-]]. now exists mid, L, gpus, um, v.
Qed.

(** X13 (main, lines 144-158).  Whatever argument list the parser accepts,
    the five values [main] reads have the declared types: the model id and
    the gpus are strings or None, the context length is an integer or None,
    use_modelscope is a boolean and outputs_dir is a string. *)
Theorem parsed_namespace_typed (argv : list string) (args : pydict) :
  parse_args parser_arguments argv = Ok args -> typed_namespace args.
Proof.
  unfold parse_args.
  apply (parse_loop_inv parser_arguments typed_namespace (length argv)); [lia| |].
  - intros tok a x ns0 _ R. apply typed_namespace_set. exact (resolve_in _ _ _ R).
  - now exists None, None, None, false, "outputs/transformer".
Qed.

Lemma parsed_namespace_typed_witness :
  parse_args parser_arguments
    ["--gpus=0,1"; "--context"; "6144"; "--use_modelscope"; "--model_id"; "Qwen/Q"]
  = Ok [ ("model_id", PStr "Qwen/Q"); ("context_length", PInt 6144);
         ("gpus", PStr "0,1"); ("use_modelscope", PBool true);
         ("outputs_dir", PStr "outputs/transformer") ]
  /\ typed_namespace
       [ ("model_id", PStr "Qwen/Q"); ("context_length", PInt 6144);
         ("gpus", PStr "0,1"); ("use_modelscope", PBool true);
         ("outputs_dir", PStr "outputs/transformer") ].
Proof.
  assert (H : parse_args parser_arguments
                ["--gpus=0,1"; "--context"; "6144"; "--use_modelscope";
                 "--model_id"; "Qwen/Q"]
              = Ok [ ("model_id", PStr "Qwen/Q"); ("context_length", PInt 6144);
                     ("gpus", PStr "0,1"); ("use_modelscope", PBool true);
                     ("outputs_dir", PStr "outputs/transformer") ])
    by (vm_compute; reflexivity).
  split; [exact H|].
  exact (parsed_namespace_typed _ _ H).
Defined.

Lemma dict_get_set_ne (k d : string) (v : pyval) (ns : pydict) :
  k <> d -> dict_get d (dict_set k v ns) = dict_get d ns.
Proof.
  intros Hne. unfold dict_get.
  induction ns as [|[k' v'] ns IH]; cbn [dict_set find fst].
  - apply String.eqb_neq in Hne. now rewrite Hne.
  - destruct (String.eqb_spec k' k) as [->|Hk]; cbn [find fst].
    + apply String.eqb_neq in Hne. now rewrite Hne.
    + destruct (String.eqb k' d); [reflexivity | exact IH].
Qed.

Lemma existsb_false_in {A} (f : A -> bool) (l : list A) (x : A) :
  existsb f l = false -> In x l -> f x = false.
Proof.
  induction l as [|y l IH]; [intros _ []|].
  cbn [existsb]. intros H. apply orb_false_iff in H as [Hy Hl].
  intros [<-|Hin]; [exact Hy | now apply IH].
Qed.

Lemma parse_keeps_default (argv : list string) (args : pydict) (d : string) :
  parse_args parser_arguments argv = Ok args ->
  mentions parser_arguments d argv = false ->
  dict_get d args = dict_get d (initial_namespace parser_arguments).
Proof.
  intros H Hno. unfold parse_args in H.
  revert H.
  apply (parse_loop_inv parser_arguments
           (fun ns => dict_get d ns = dict_get d (initial_namespace parser_arguments))
           (length argv)); [lia| |reflexivity].
  intros tok a x ns0 Hin R _ Hns.
  rewrite dict_get_set_ne; [exact Hns|].
  unfold mentions in Hno.
  pose proof (existsb_false_in _ _ _ Hno Hin) as Htok.
  cbv beta in Htok. rewrite R in Htok. now apply String.eqb_neq.
Qed.

(** X14 (main, lines 144-152).  An attribute whose option no token of the
    accepted argument list names keeps its default: None for the model id,
    the context length and the gpus, False for use_modelscope and
    'outputs/transformer' for outputs_dir. *)
Theorem unmentioned_keeps_default (argv : list string) (args : pydict) (d : string) :
  parse_args parser_arguments argv = Ok args ->
  mentions parser_arguments d argv = false ->
  dict_get d args = dict_get d (initial_namespace parser_arguments).
Proof. apply parse_keeps_default. Qed.

Lemma unmentioned_keeps_default_witness :
  parse_args parser_arguments ["--model_id"; "Qwen/Q"; "--context_length=1"; "--gpus"; "0"]
  = Ok [ ("model_id", PStr "Qwen/Q"); ("context_length", PInt 1);
         ("gpus", PStr "0"); ("use_modelscope", PBool false);
         ("outputs_dir", PStr "outputs/transformer") ]
  /\ mentions parser_arguments "outputs_dir"
              ["--model_id"; "Qwen/Q"; "--context_length=1"; "--gpus"; "0"] = false
  /\ dict_get "outputs_dir"
              [ ("model_id", PStr "Qwen/Q"); ("context_length", PInt 1);
                ("gpus", PStr "0"); ("use_modelscope", PBool false);
                ("outputs_dir", PStr "outputs/transformer") ]
     = PStr "outputs/transformer".
Proof.
  assert (H : parse_args parser_arguments
                ["--model_id"; "Qwen/Q"; "--context_length=1"; "--gpus"; "0"]
              = Ok [ ("model_id", PStr "Qwen/Q"); ("context_length", PInt 1);
                     ("gpus", PStr "0"); ("use_modelscope", PBool false);
                     ("outputs_dir", PStr "outputs/transformer") ])
    by (vm_compute; reflexivity).
  assert (Hm : mentions parser_arguments "outputs_dir"
                 ["--model_id"; "Qwen/Q"; "--context_length=1"; "--gpus"; "0"] = false)
    by (vm_compute; reflexivity).
  split; [exact H|]. split; [exact Hm|].
  exact (unmentioned_keeps_default _ _ "outputs_dir" H Hm).
Defined.

(** ** [main] *)

Lemma as_opt_str_opt_str (o : option string) : as_opt_str (opt_str o) = o.
Proof. now destruct o. Qed.

(** X15 (main, lines 148, 155, 160-161).  The option --gpus has no default
    and [main] assigns its value to the environment unchecked: for every
    accepted argument list that does not name it, [main] prints its first
    line and ends in TypeError, before the constructor is called; nothing is
    seeded, downloaded or written. *)
Theorem main_needs_gpus (W : World) (argv : list string) (args : pydict) (s : State) :
  parse_args parser_arguments argv = Ok args ->
  mentions parser_arguments "gpus" argv = false ->
  main W argv s = (Raise TypeError, refused_devices args s).
Proof.
  intros H Hno.
  pose proof (parse_keeps_default _ _ "gpus" H Hno) as Hg.
  destruct (parse_args_ok argv args H) as [Hk _].
  destruct (namespace_shape args Hk) as (v1 & v2 & v3 & v4 & v5 & ->).
  cbn in Hg. subst v3.
  unfold main. rewrite (bind_lift_Ok _ _ _ _ H). reflexivity.
Qed.

Lemma main_needs_gpus_witness :
  parse_args parser_arguments ["--model_id"; "Qwen/Q"; "--context_length"; "1"]
  = Ok [ ("model_id", PStr "Qwen/Q"); ("context_length", PInt 1); ("gpus", PNone);
         ("use_modelscope", PBool false); ("outputs_dir", PStr "outputs/transformer") ]
  /\ mentions parser_arguments "gpus" ["--model_id"; "Qwen/Q"; "--context_length"; "1"]
     = false
  /\ main demo_W ["--model_id"; "Qwen/Q"; "--context_length"; "1"] demo_s0
     = (Raise TypeError,
        log (EvPrint (MsgSetDevices None (Some "Qwen/Q") (Some 1))) demo_s0).
Proof.
  assert (H : parse_args parser_arguments
                ["--model_id"; "Qwen/Q"; "--context_length"; "1"]
              = Ok [ ("model_id", PStr "Qwen/Q"); ("context_length", PInt 1);
                     ("gpus", PNone); ("use_modelscope", PBool false);
                     ("outputs_dir", PStr "outputs/transformer") ])
    by (vm_compute; reflexivity).
  assert (Hm : mentions parser_arguments "gpus"
                 ["--model_id"; "Qwen/Q"; "--context_length"; "1"] = false)
    by (vm_compute; reflexivity).
  split; [exact H|]. split; [exact Hm|].
  exact (main_needs_gpus demo_W _ _ demo_s0 H Hm).
Defined.

(** X16 (main and run, lines 146, 156, 163-166, 74).  The option
    --context_length has no default either, but its absence is noticed only
    when [run] adds it to 2048: for an accepted argument list that gives the
    gpus and does not name the context length, [main] first goes through the
    whole constructor, download and loading included, and then ends in
    TypeError, in the state the constructor left. *)
Theorem main_needs_context_length (W : World) (argv : list string) (args : pydict)
        (mid : option string) (g od : string) (um : bool) (s s1 : State)
        (sb : SpeedBenchmarkTransformer) :
  parse_args parser_arguments argv = Ok args ->
  mentions parser_arguments "context_length" argv = false ->
  dict_get "model_id" args = opt_str mid ->
  dict_get "gpus" args = PStr g ->
  dict_get "use_modelscope" args = PBool um ->
  dict_get "outputs_dir" args = PStr od ->
  init W mid um od (before_init g mid None s) = (Ok sb, s1) ->
  main W argv s = (Raise TypeError, s1).
Proof.
  intros H Hno H1 H3 H4 H5 Hinit.
  pose proof (parse_keeps_default _ _ "context_length" H Hno) as H2.
  destruct (parse_args_ok argv args H) as [Hk _].
  destruct (namespace_shape args Hk) as (v1 & v2 & v3 & v4 & v5 & ->).
  cbn in H1, H2, H3, H4, H5. subst v1 v2 v3 v4 v5.
  unfold main. rewrite (bind_lift_Ok _ _ _ _ H).
  change (main_body W (opt_str mid) (PStr g) PNone (PBool um) (PStr od) s
          = (Raise TypeError, s1)).
  rewrite (main_body_eq W (opt_str mid) (PStr g) PNone (PBool um) (PStr od) g s eq_refl).
  rewrite as_opt_str_opt_str. cbn [as_opt_str as_opt_int as_bool].
  now rewrite (bind_Ok _ _ _ _ _ Hinit).
Qed.

Lemma main_needs_context_length_witness :
  main demo_W ["--model_id"; "Qwen/Q"; "--gpus"; "0"; "--use_modelscope"] demo_s0
  = (Raise TypeError,
     snd (init demo_W (Some "Qwen/Q") true "outputs/transformer"
               (before_init "0" (Some "Qwen/Q") None demo_s0))).
Proof.
  apply (main_needs_context_length demo_W
           ["--model_id"; "Qwen/Q"; "--gpus"; "0"; "--use_modelscope"]
           [ ("model_id", PStr "Qwen/Q"); ("context_length", PNone);
             ("gpus", PStr "0"); ("use_modelscope", PBool true);
             ("outputs_dir", PStr "outputs/transformer") ]
           (Some "Qwen/Q") "0" "outputs/transformer" true demo_s0 _
           {| model_id := Some "Qwen/Q"; outputs_dir := "outputs/transformer";
              tokenizer := demo_tokenizer; model := demo_model;
              generation_config := demo_config |});
    vm_compute; reflexivity.
Defined.





(** ** The context length on the command line *)






(** ** Further edge cases *)

(** X19 (is_module_installed and the constructor, lines 16-18, 47-55).  The
    constructor asks [find_spec] about one module only, modelscope or
    huggingface_hub according to the flag: whether any other module is
    installed, transformers included, does not change what it does. *)
Theorem init_checks_one_module (W : World) (f : string -> bool)
        (mid : option string) (use_modelscope : bool) (od : string) (s : State) :
  f (required_module use_modelscope) = module_installed W (required_module use_modelscope) ->
  init (with_module_installed f W) mid use_modelscope od s
  = init W mid use_modelscope od s.
Proof.
  intros H. unfold init, import_hub, is_module_installed.
  destruct use_modelscope; cbn [required_module] in H;
    cbn [with_module_installed module_installed import_from snapshot_download
         tokenizer_from_pretrained model_from_pretrained
         generation_config_from_pretrained];
    rewrite H; reflexivity.
Qed.

Lemma init_checks_one_module_witness :
  init (with_module_installed (fun m => String.eqb m "modelscope") demo_W)
       (Some "Qwen/Q") true "outputs/transformer" demo_s0
  = init demo_W (Some "Qwen/Q") true "outputs/transformer" demo_s0.
Proof.
  apply (init_checks_one_module demo_W (fun m => String.eqb m "modelscope")).
  reflexivity.
Defined.

(** X20 (run, lines 80-82).  A negative context length makes the prompt
    empty, and no tensor has a negative width: the run cannot succeed, and
    it ends in AssertionError at the first [assert] if the tokenizer returns
    at all. *)
Theorem negative_context_length_fails (W : World) (self : SpeedBenchmarkTransformer)
        (L : Z) (s : State) :
  L < 0 -> never_succeeds W self L s.
Proof.
  intros HL. split; [|split].
  - unfold run_batch, str_mul. now destruct L.
  - intros inputs Henc.
    assert (Hne : (shape1 inputs =? L) = false)
      by (apply Z.eqb_neq; unfold shape1; lia).
    unfold run.
    cbn [generation_config with_generation_config tokenizer model model_id outputs_dir].
    rewrite bind_print, bind_emit, (bind_lift_Ok _ _ _ _ Henc), Hne.
    reflexivity.
  - intros [self' out] E.
    destruct (run W self L s) as [o s'] eqn:R. cbn [fst] in E. subst o.
    destruct (run_ok_inv _ _ _ _ _ _ _ R)
      as (inputs & pred & mid & q & t1 & t2 & _ & Hs & _).
    unfold shape1 in Hs. lia.
Qed.

Lemma negative_context_length_fails_witness :
  -1 < 0 /\ never_succeeds demo_W demo_self (-1) demo_s0.
Proof.
  assert (H : -1 < 0) by lia.
  split; [exact H|].
  exact (negative_context_length_fails demo_W demo_self (-1) demo_s0 H).
Defined.

Lemma str_length_app (a b : string) :
  String.length (a ++ b) = (String.length a + String.length b)%nat.
Proof. induction a as [|x a IH]; cbn [String.append String.length]; [reflexivity|]. now rewrite IH. Qed.

Lemma all_digits_app (a b : string) :
  all_digits (a ++ b) = (all_digits a && all_digits b)%bool.
Proof.
  induction a as [|x a IH]; cbn [String.append all_digits]; [reflexivity|].
  now rewrite IH, andb_assoc.
Qed.

Lemma pad2_two (n : nat) :
  (n < 100)%nat -> String.length (pad2 n) = 2%nat /\ all_digits (pad2 n) = true.
Proof.
  intros Hn.
  assert (H : forallb (fun k => ((String.length (pad2 k) =? 2)%nat
                                 && all_digits (pad2 k))%bool) (seq 0 100) = true)
    by (vm_compute; reflexivity).
  rewrite forallb_forall in H.
  specialize (H n ltac:(apply in_seq; lia)).
  apply andb_true_iff in H as [H1 H2]. now apply Nat.eqb_eq in H1.
Qed.

(** X21 (run, lines 121-122).  The time stamp in the name of the result
    file is ten decimal digits, two each for month, day, hour, minute and
    second; the year is not part of it. *)
Theorem timestamp_ten_digits (now : datetime) :
  valid_datetime now ->
  String.length (strftime_mdHMS now) = 10%nat
  /\ all_digits (strftime_mdHMS now) = true.
Proof.
  intros (Hm & Hd & Hh & Hmi & Hs). unfold strftime_mdHMS.
  destruct (pad2_two (dt_month now)) as [A1 B1]; [lia|].
  destruct (pad2_two (dt_day now)) as [A2 B2]; [lia|].
  destruct (pad2_two (dt_hour now)) as [A3 B3]; [lia|].
  destruct (pad2_two (dt_minute now)) as [A4 B4]; [lia|].
  destruct (pad2_two (dt_second now)) as [A5 B5]; [lia|].
  rewrite !str_length_app, !all_digits_app, A1, A2, A3, A4, A5, B1, B2, B3, B4, B5.
  split; reflexivity.
Qed.

Lemma timestamp_ten_digits_witness :
  valid_datetime (datetime_now demo_W)
  /\ String.length (strftime_mdHMS (datetime_now demo_W)) = 10%nat
  /\ all_digits (strftime_mdHMS (datetime_now demo_W)) = true.
Proof.
  assert (H : valid_datetime (datetime_now demo_W))
    by (unfold valid_datetime; simpl; lia).
  split; [exact H|].
  exact (timestamp_ten_digits (datetime_now demo_W) H).
Defined.

(** ** [main] from end to end, and [save_result] on any record *)

(** X22 (main, lines 152-166).  [main] is the constructor followed by
    [run]: for an accepted argument list that gives the model id, the gpus
    and the context length, if the constructor returns an object from the
    state in which the devices are set, and [run] on that object and that
    context length returns, then [main] returns in the state [run] left. *)
Theorem main_runs_benchmark (W : World) (argv : list string) (args : pydict)
        (mid : option string) (g od : string) (um : bool) (L : Z)
        (s s1 s2 : State) (sb : SpeedBenchmarkTransformer)
        (r : SpeedBenchmarkTransformer * string) :
  parse_args parser_arguments argv = Ok args ->
  dict_get "model_id" args = opt_str mid ->
  dict_get "context_length" args = PInt L ->
  dict_get "gpus" args = PStr g ->
  dict_get "use_modelscope" args = PBool um ->
  dict_get "outputs_dir" args = PStr od ->
  init W mid um od (before_init g mid (Some L) s) = (Ok sb, s1) ->
  run W sb L s1 = (Ok r, s2) ->
  main W argv s = (Ok tt, s2).
Proof.
  intros H H1 H2 H3 H4 H5 Hinit Hrun.
  destruct (parse_args_ok argv args H) as [Hk _].
  destruct (namespace_shape args Hk) as (v1 & v2 & v3 & v4 & v5 & ->).
  cbn in H1, H2, H3, H4, H5. subst v1 v2 v3 v4 v5.
  unfold main. rewrite (bind_lift_Ok _ _ _ _ H).
  change (main_body W (opt_str mid) (PStr g) (PInt L) (PBool um) (PStr od) s
          = (Ok tt, s2)).
  rewrite (main_body_eq W (opt_str mid) (PStr g) (PInt L) (PBool um) (PStr od) g s eq_refl).
  rewrite as_opt_str_opt_str. cbn [as_opt_str as_opt_int as_bool].
  rewrite (bind_Ok _ _ _ _ _ Hinit). now rewrite (bind_Ok _ _ _ _ _ Hrun).
Qed.

Lemma main_runs_benchmark_witness :
  main demo_W
       [ "--model_id"; "Qwen/Qwen2.5-0.5B-Instruct"; "--context_length"; "1";
         "--gpus"; "0"; "--use_modelscope" ] demo_s0
  = (Ok tt,
     snd (run demo_W demo_self 1
              (snd (init demo_W (Some "Qwen/Qwen2.5-0.5B-Instruct") true
                         "outputs/transformer"
                         (before_init "0" (Some "Qwen/Qwen2.5-0.5B-Instruct")
                                      (Some 1) demo_s0))))).
Proof.
  apply (main_runs_benchmark demo_W
           [ "--model_id"; "Qwen/Qwen2.5-0.5B-Instruct"; "--context_length"; "1";
             "--gpus"; "0"; "--use_modelscope" ]
           [ ("model_id", PStr "Qwen/Qwen2.5-0.5B-Instruct"); ("context_length", PInt 1);
             ("gpus", PStr "0"); ("use_modelscope", PBool true);
             ("outputs_dir", PStr "outputs/transformer") ]
           (Some "Qwen/Qwen2.5-0.5B-Instruct") "0" "outputs/transformer" true 1
           demo_s0
           (snd (init demo_W (Some "Qwen/Qwen2.5-0.5B-Instruct") true
                      "outputs/transformer"
                      (before_init "0" (Some "Qwen/Qwen2.5-0.5B-Instruct")
                                   (Some 1) demo_s0)))
           (snd (run demo_W demo_self 1
                     (snd (init demo_W (Some "Qwen/Qwen2.5-0.5B-Instruct") true
                                "outputs/transformer"
                                (before_init "0" (Some "Qwen/Qwen2.5-0.5B-Instruct")
                                             (Some 1) demo_s0)))))
           demo_self (demo_self', demo_out)).
  - vm_compute. reflexivity.
  - reflexivity.
  - reflexivity.
  - reflexivity.
  - reflexivity.
  - reflexivity.
  - match goal with
    | |- ?r = (?a, snd ?r) => apply (pair_of_fst r a); vm_compute; reflexivity
    end.
  - match goal with
    | |- ?r = (?a, snd ?r) => apply (pair_of_fst r a); vm_compute; reflexivity
    end.
Defined.






